(** * Feature extraction and dataset preparation of [mete/utils.py]

    A shallow embedding of the feature pipeline of [src/mete/utils.py]:
    [find_extrema], [build_features], [PolymerDataset._process_event] and
    [PolymerDataset.preprocess].

    Modelling conventions.
    - Python integers are [Z]; list and array lengths are [nat] and are
      injected with [Z.of_nat] where the source mixes them with integers.
    - float64 values are idealised as rationals [Q] (exact arithmetic, no
      rounding, no NaN).  Comparisons are the boolean ones the source
      branches on.
    - An event is a 2-column numpy array; a row is a pair (time, current),
      so that [event[i, 1]] is the second component of the [i]-th row.
    - Python exceptions are the [Raise] results of an error monad.
    - The feature dictionary is an association list in insertion order,
      because [list(features.values())] depends on that order.
    - scipy's [find_peaks_cwt], the square root inside [np.std] and numpy's
      seeded random permutation are external: they are the fields of the
      class [Externals]. *)

From Stdlib Require Import QArith Qabs Qminmax ZArith Lia Lqa Permutation Sorted.
From stdpp Require Import base list strings.

#[local] Open Scope string_scope.
#[local] Open Scope Z_scope.
#[local] Open Scope nat_scope.
#[local] Open Scope list_scope.

(** ** Exceptions *)

Inductive exn : Type :=
| ValueError (msg : string)
| IndexError
| ZeroDivisionError.

Inductive result (A : Type) : Type :=
| Ok (a : A)
| Raise (e : exn).
Arguments Ok {A} a.
Arguments Raise {A} e.

#[global] Instance result_ret : MRet result := @Ok.
#[global] Instance result_bind : MBind result :=
  λ A B f m, match m with Ok a => f a | Raise e => Raise e end.

Definition is_ok {A} (r : result A) : Prop := ∃ a, r = Ok a.
Definition raises {A} (r : result A) : Prop := ∃ e, r = Raise e.

(** ** Python sequences *)

Module Py.

(** [l[i]] for an integer [i], negative indices counting from the end. *)
Definition index {A} (l : list A) (i : Z) : result A :=
  let n := Z.of_nat (length l) in
  let j := if (i <? 0)%Z then (i + n)%Z else i in
  if (j <? 0)%Z then Raise IndexError
  else match l !! Z.to_nat j with
       | Some x => Ok x
       | None => Raise IndexError
       end.

(** [range(lo, hi)]. *)
Definition range (lo hi : Z) : list Z :=
  map (λ k, (lo + Z.of_nat k)%Z) (seq 0 (Z.to_nat (hi - lo))).

(** [l[lo:hi]] for integers [lo] and [hi]: negative bounds count from the
    end, and both are clipped to the sequence. *)
Definition clip (n : nat) (i : Z) : nat :=
  if (i <? 0)%Z then Z.to_nat (i + Z.of_nat n) else Nat.min (Z.to_nat i) n.

Definition slice {A} (l : list A) (lo hi : Z) : list A :=
  let a := clip (length l) lo in
  let b := clip (length l) hi in
  take (b - a) (drop a l).

(** [for x in xs: s = body(x, s)], stopping at the first exception. *)
Fixpoint for_in {I S} (xs : list I) (body : I → S → result S) (s : S)
  : result S :=
  match xs with
  | [] => Ok s
  | x :: xs' => s' ← body x s; for_in xs' body s'
  end.

(** [[f(x) for x in xs]] where [f] may raise. *)
Fixpoint comprehension {I B} (f : I → result B) (xs : list I)
  : result (list B) :=
  match xs with
  | [] => Ok []
  | x :: xs' => y ← f x; ys ← comprehension f xs'; Ok (y :: ys)
  end.

(** Truth value of an optional integer: [None] and [0] are falsy. *)
Definition truthy (x : option Z) : bool :=
  match x with
  | None => false
  | Some v => negb (v =? 0)%Z
  end.

(** [x or y]: [y] is evaluated only when [x] is falsy. *)
Definition or_else (x : option Z) (y : result Z) : result Z :=
  match x with
  | None => y
  | Some v => if (v =? 0)%Z then y else Ok v
  end.

(** [a[idxs]] for an integer index array [idxs]. *)
Definition take_indices {A} (l : list A) (idxs : list Z) : result (list A) :=
  comprehension (index l) idxs.

(** The builtin [min] on a list of integers. *)
Definition min (l : list Z) : result Z :=
  match l with
  | [] => Raise (ValueError "min() arg is an empty sequence")
  | x :: l' => Ok (foldl (λ m y, if (y <? m)%Z then y else m) x l')
  end.

(** [int(np.ceil(a / b))] on integers. *)
Definition ceil_div (a b : Z) : result Z :=
  if (b =? 0)%Z then Raise ZeroDivisionError else Ok (- ((- a) / b))%Z.

(** [enumerate(l)]. *)
Definition enumerate {A} (l : list A) : list (Z * A) :=
  imap (λ i x, (Z.of_nat i, x)) l.

End Py.

(** ** Events *)

Definition sample : Type := Q * Q.
Definition event : Type := list sample.

Definition time (s : sample) : Q := s.1.
Definition current (s : sample) : Q := s.2.

(** [n > m] on lengths is decided as [m < n]. *)
#[global] Instance nat_gt_dec : RelDecision gt := λ n m, decide (m < n).
#[global] Instance Z_gt_dec : RelDecision Z.gt :=
  λ n m, decide ((n ?= m)%Z = Gt).

(** Strict comparison [y < x] as a boolean, as in [x > y]. *)
Definition Qgt_bool (x y : Q) : bool := negb (Qle_bool x y).

(** ** [find_extrema] *)

(** The body of the loop of [find_extrema], lines 15 to 23. *)
Definition find_extrema_body (ev : event) (extrema_th : Q)
    (i : Z) (extrema : list sample) : result (list sample) :=
  this ← Py.index ev i;
  prev ← Py.index ev (i - 1)%Z;
  next ← Py.index ev (i + 1)%Z;
  let this_current := current this in
  let prev_current := current prev in
  let next_current := current next in
  let prev_change := (this_current - prev_current)%Q in
  let next_change := (this_current - next_current)%Q in
  if Qle_bool 0 (prev_change * next_change) then
    last_extremum ← Py.index extrema (-1)%Z;
    let extrema_change := Qabs (this_current - current last_extremum) in
    if Qgt_bool extrema_change extrema_th then
      Ok (extrema ++ [this])
    else Ok extrema
  else Ok extrema.

Definition find_extrema (ev : event) (extrema_th : Q) : result (list sample) :=
  first ← Py.index ev 0%Z;
  let extrema := [first] in
  extrema ← Py.for_in (Py.range 1 (Z.of_nat (length ev) - 1))
                      (find_extrema_body ev extrema_th) extrema;
  final ← Py.index ev (-1)%Z;
  Ok (extrema ++ [final]).

(** ** Feature dictionaries *)

(** A Python [dict] with string keys, in insertion order. *)
Definition dict : Type := list (string * Q).

(** [d[k] = v]: an existing key keeps its position, a new key goes last. *)
Fixpoint dict_set (k : string) (v : Q) (d : dict) : dict :=
  match d with
  | [] => [(k, v)]
  | (k', v') :: d' =>
      if String.eqb k k' then (k, v) :: d' else (k', v') :: dict_set k v d'
  end.

Fixpoint dict_get (k : string) (d : dict) : option Q :=
  match d with
  | [] => None
  | (k', v') :: d' => if String.eqb k k' then Some v' else dict_get k d'
  end.

Definition dict_keys (d : dict) : list string := map fst d.
Definition dict_values (d : dict) : list Q := map snd d.

(** ** numpy reductions, in exact arithmetic *)

Definition of_nat (n : nat) : Q := inject_Z (Z.of_nat n).

Definition np_sum (l : list Q) : Q := foldr Qplus 0%Q l.

(** [np.mean]. On an empty array numpy gives NaN; the rationals have no NaN
    and the division by the length 0 gives 0 here. [build_features] takes
    no mean of an empty array: see the properties below. *)
Definition np_mean (l : list Q) : Q := (np_sum l / of_nat (length l))%Q.

Definition empty_reduction : exn :=
  ValueError "zero-size array to reduction operation maximum which has no identity".

Definition np_max (l : list Q) : result Q :=
  match l with
  | [] => Raise empty_reduction
  | x :: l' => Ok (foldl (λ m y, if Qgt_bool y m then y else m) x l')
  end.

Definition np_min (l : list Q) : result Q :=
  match l with
  | [] => Raise empty_reduction
  | x :: l' => Ok (foldl (λ m y, if Qgt_bool m y then y else m) x l')
  end.

(** [np.max] on an array of integers (event lengths). *)
Definition np_max_int (l : list Z) : result Z :=
  match l with
  | [] => Raise empty_reduction
  | x :: l' => Ok (foldl Z.max x l')
  end.

(** The builtin [max] on a list of floats: the first largest item. *)
Definition py_max (l : list Q) : result Q :=
  match l with
  | [] => Raise (ValueError "max() arg is an empty sequence")
  | x :: l' => Ok (foldl (λ m y, if Qgt_bool y m then y else m) x l')
  end.

(** [sorted(l, reverse=True)]: a stable sort into descending order. *)
Fixpoint insert_desc (x : Q) (l : list Q) : list Q :=
  match l with
  | [] => [x]
  | y :: l' => if Qgt_bool y x then y :: insert_desc x l' else x :: y :: l'
  end.

Definition sorted_reverse (l : list Q) : list Q := foldr insert_desc [] l.

(** A 2-column array read as one flat sequence of numbers, which is what
    numpy's reductions without an axis work on. *)
Definition flatten (a : list sample) : list Q :=
  concat (map (λ s, [time s; current s]) a).

(** ** External collaborators *)

Class Externals : Type := {
  (** the square root used by [np.std] *)
  np_sqrt : Q → Q;
  (** [scipy.signal.find_peaks_cwt(vector, widths)], the indices of the peaks *)
  find_peaks_cwt : list Q → Q → list Z;
  find_peaks_cwt_in_range : ∀ vector widths,
    Forall (λ i, (0 ≤ i < Z.of_nat (length vector))%Z)
           (find_peaks_cwt vector widths);
  (** numpy's global random state, and [np.random.seed(seed)] *)
  rng : Type;
  np_random_seed : Z → rng;
  (** [np.random.permutation(n)], with the state it leaves behind *)
  np_random_permutation : rng → nat → list Z * rng;
  np_random_permutation_perm : ∀ g n,
    (np_random_permutation g n).1 ≡ₚ map Z.of_nat (seq 0 n);
}.

(** ** The pipeline *)

Section Pipeline.
Context `{Externals}.

(** [np.std(a)]: the root of the mean squared deviation from the mean. *)
Definition np_std (l : list Q) : Q :=
  let m := np_mean l in
  np_sqrt (np_mean (map (λ x, Qabs (x - m) * Qabs (x - m))%Q l)).

(** The dictionary literal of lines 59 to 77. *)
Definition features_init : dict :=
  [ ("num_signals", 0%Q); ("duration", 0%Q); ("max_current", 0%Q);
    ("min_current", 0%Q); ("mean_current", 0%Q); ("std_current", 0%Q);
    ("num_extrema", 0%Q); ("mean_extrema", 0%Q); ("std_extrema", 0%Q);
    ("mean_extrema_diff", 0%Q); ("num_peaks", 0%Q); ("mean_peaks", 0%Q);
    ("peak_1", 0%Q); ("peak_2", 0%Q); ("peak_3", 0%Q); ("peak_4", 0%Q);
    ("peak_5", 0%Q) ].

(** [extrema[i, 1] - extrema[i-1, 1]] *)
Definition extrema_diff_at (extrema : list sample) (i : Z) : result Q :=
  a ← Py.index extrema i;
  b ← Py.index extrema (i - 1)%Z;
  Ok (current a - current b)%Q.

(** [[extrema[i, 1] - extrema[i-1, 1] for i in range(1, len(extrema))]] *)
Definition extrema_diffs (extrema : list sample) : result (list Q) :=
  Py.comprehension (extrema_diff_at extrema)
                   (Py.range 1 (Z.of_nat (length extrema))).

(** [peaks[k] if len(peaks) > k else 0] *)
Definition peak_or_zero (peaks : list Q) (k : nat) : result Q :=
  if decide (length peaks > k) then Py.index peaks (Z.of_nat k) else Ok 0%Q.

Definition build_features (ev : event) (extrema_th : Q) : result dict :=
  let features := features_init in
  if decide (length ev > 0) then
    let features := dict_set "num_signals" (of_nat (length ev)) features in
    final ← Py.index ev (-1)%Z;
    let features := dict_set "duration" (time final) features in
    max_current ← np_max (map current ev);
    let features := dict_set "max_current" max_current features in
    min_current ← np_min (map current ev);
    let features := dict_set "min_current" min_current features in
    let features := dict_set "mean_current" (np_mean (map current ev)) features in
    let features := dict_set "std_current" (np_std (map current ev)) features in
    extrema ← find_extrema ev extrema_th;
    let features := dict_set "num_extrema" (of_nat (length extrema)) features in
    let features := dict_set "mean_extrema" (np_mean (flatten extrema)) features in
    let features := dict_set "std_extrema" (np_std (flatten extrema)) features in
    diffs ← extrema_diffs extrema;
    let features :=
      dict_set "mean_extrema_diff" (np_mean (map Qabs diffs)) features in
    final ← Py.index ev (-1)%Z;
    widths ← py_max [1%Q; time final];
    let peaks_idx := find_peaks_cwt (map current ev) widths in
    let features := dict_set "num_peaks" (of_nat (length peaks_idx)) features in
    if decide (length peaks_idx > 0) then
      rows ← Py.take_indices ev peaks_idx;
      let peaks := sorted_reverse (map current rows) in
      let features := dict_set "mean_peaks" (np_mean peaks) features in
      peak_1 ← peak_or_zero peaks 0;
      let features := dict_set "peak_1" peak_1 features in
      peak_2 ← peak_or_zero peaks 1;
      let features := dict_set "peak_2" peak_2 features in
      peak_3 ← peak_or_zero peaks 2;
      let features := dict_set "peak_3" peak_3 features in
      peak_4 ← peak_or_zero peaks 3;
      let features := dict_set "peak_4" peak_4 features in
      peak_5 ← peak_or_zero peaks 4;
      let features := dict_set "peak_5" peak_5 features in
      Ok features
    else Ok features
  else Ok features.

(** [PolymerDataset._process_event]; a segmented event is the list of
    its rows. *)
Definition _process_event (ev : event) (timesteps : Z)
    (stepsize : option Z) (extrema_th : Q) : result (list (list Q)) :=
  let compressed_event := [] in
  stepsize ← Py.or_else stepsize
               (Py.ceil_div (Z.of_nat (length ev)) timesteps);
  Py.for_in (Py.range 0 timesteps)
    (λ i compressed_event,
       let sub_event := Py.slice ev (i * stepsize)%Z ((i + 1) * stepsize)%Z in
       features ← build_features sub_event extrema_th;
       Ok (compressed_event ++ [dict_values features]))
    compressed_event.

(** *** [PolymerDataset.preprocess] *)

Record dataset : Type := Dataset {
  data : list (list (list Q));
  labels : list Z;
}.

Definition min_event_len : Z := 50.
Definition max_event_len : Z := 10000.

(** Lines 143 to 147: every class is cut down to the size of the smallest
    one, after a random permutation drawn from the global state. *)
Definition balance (raw_data : list (list event)) (g : rng)
  : result (list (list event) * rng) :=
  min_data_size ← Py.min (map (λ d, Z.of_nat (length d)) raw_data);
  Py.for_in raw_data
    (λ r_data '(balanced_data, g),
       let '(indices, g) := np_random_permutation g (length r_data) in
       chosen ← Py.take_indices r_data (Py.slice indices 0 min_data_size);
       Ok (balanced_data ++ [chosen], g))
    ([], g).

(** Lines 157 to 160: the events of one class that are neither too short
    nor too long. *)
Definition normal_events_of (b_data : list event) : list event :=
  foldl (λ normal_events ev,
           if decide ((Z.of_nat (length ev) > min_event_len)%Z
                      ∧ (Z.of_nat (length ev) < max_event_len)%Z)
           then normal_events ++ [ev] else normal_events)
        [] b_data.

(** Lines 150 to 161. *)
Definition remove_short_and_long (balanced_data : list (list event))
  : list (list event) :=
  foldl (λ normal_data b_data, normal_data ++ [normal_events_of b_data])
        [] balanced_data.

(** Lines 168 to 172. *)
Definition process_events (normal_data : list (list event)) (timesteps : Z)
    (stepsize : option Z) (extrema_th : Q)
  : result (list (list (list Q)) * list Z) :=
  Py.for_in (Py.enumerate normal_data)
    (λ '(data_index, raw_data) acc,
       Py.for_in raw_data
         (λ ev '(data, labels),
            processed_event ← _process_event ev timesteps stepsize extrema_th;
            Ok (data ++ [processed_event], labels ++ [data_index]))
         acc)
    ([], []).

Definition preprocess (raw_data : list (list event))
    (timesteps stepsize : option Z) (extrema_th : Q) (seed : Z)
  : result dataset :=
  if negb (Py.truthy timesteps) && negb (Py.truthy stepsize) then
    Raise (ValueError "Either timesteps or stepsize should be specified")
  else
    let g := np_random_seed seed in
    '(balanced_data, _) ← balance raw_data g;
    let normal_data := remove_short_and_long balanced_data in
    longest ← np_max_int
      (map (λ ev : event, Z.of_nat (length ev)) (concat normal_data));
    timesteps ← Py.or_else timesteps
                  (Py.ceil_div longest (default 0%Z stepsize));
    '(data, labels) ← process_events normal_data timesteps stepsize extrema_th;
    Ok (Dataset data labels).

(** [PolymerDataset.__init__], from the arrays loaded from [data_paths]:
    [preprocess] with its default seed. Saving the tensor is left out. *)
Definition PolymerDataset_init (raw_data : list (list event))
    (timesteps stepsize : option Z) (extrema_th : Q) : result dataset :=
  preprocess raw_data timesteps stepsize extrema_th 42%Z.

End Pipeline.

(** ** [find_current_diffs] *)


(** ** The accessors of [PolymerDataset] *)






(** ** Definitions used to state the properties *)

(** The samples strictly between the first and the last one. *)
Definition interior (ev : event) : list sample :=
  take (length ev - 2) (drop 1 ev).

(** Index [i] is a candidate extremum of the event: an interior index whose
    two changes of current have a product of at least 0 (line 20). *)
Definition candidate (ev : event) (i : nat) : Prop :=
  ∃ prev this next,
    1 ≤ i ∧ ev !! (i - 1) = Some prev ∧ ev !! i = Some this
    ∧ ev !! (i + 1) = Some next
    ∧ (0 <= (current this - current prev) * (current this - current next))%Q.

(** Every sample of the sequence differs in current from the one before it
    by more than the threshold. *)
Definition spaced (th : Q) (l : list sample) : Prop :=
  ∀ (k : nat) a b, l !! k = Some a → l !! S k = Some b →
    (th < Qabs (current b - current a))%Q.




(** The [i]-th window of [_process_event] (line 128). *)
Definition window (ev : event) (stepsize i : Z) : event :=
  Py.slice ev (i * stepsize)%Z ((i + 1) * stepsize)%Z.

(** The differences between consecutive values of a sequence. *)
Definition consecutive_diffs (l : list Q) : list Q :=
  zip_with (λ prev next, next - prev)%Q l (drop 1 l).

(** The feature dictionary of a non-empty window, from the quantities the
    specification names: the last sample, the extreme currents, the extrema,
    the detected peak indices and the peak currents in descending order. *)
Definition features_of `{Externals} (ev : event) (final : sample)
    (max_current min_current : Q) (extrema : list sample)
    (peaks_idx : list Z) (peaks : list Q) : dict :=
  [ ("num_signals", of_nat (length ev));
    ("duration", time final);
    ("max_current", max_current);
    ("min_current", min_current);
    ("mean_current", np_mean (map current ev));
    ("std_current", np_std (map current ev));
    ("num_extrema", of_nat (length extrema));
    ("mean_extrema", np_mean (flatten extrema));
    ("std_extrema", np_std (flatten extrema));
    ("mean_extrema_diff",
       np_mean (map Qabs (consecutive_diffs (map current extrema))));
    ("num_peaks", of_nat (length peaks_idx));
    ("mean_peaks", if decide (length peaks_idx > 0) then np_mean peaks else 0%Q);
    ("peak_1", nth 0 peaks 0%Q);
    ("peak_2", nth 1 peaks 0%Q);
    ("peak_3", nth 2 peaks 0%Q);
    ("peak_4", nth 3 peaks 0%Q);
    ("peak_5", nth 4 peaks 0%Q) ].

(** *** A concrete set of collaborators, to run the pipeline on examples *)

Module Reference.

(** The square root, truncated to 52 binary digits. *)
Definition sqrt (q : Q) : Q :=
  Qmake (Z.sqrt (Qnum q * QDen q * 2 ^ 104)) (Qden q * 2 ^ 52).

(** A peak detector that ignores the width: the interior indices whose
    value is strictly above both neighbours. *)
Definition is_local_maximum (vector : list Q) (i : nat) : bool :=
  match i, vector !! (i - 1), vector !! i, vector !! (i + 1) with
  | S _, Some a, Some b, Some c => Qgt_bool b a && Qgt_bool b c
  | _, _, _, _ => false
  end.

Definition local_maxima (vector : list Q) (widths : Q) : list Z :=
  map Z.of_nat (List.filter (is_local_maximum vector) (seq 0 (length vector))).

(** No shuffling: the permutation is the identity. *)
Definition identity_permutation (g : unit) (n : nat) : list Z * unit :=
  (map Z.of_nat (seq 0 n), g).

Definition externals : Externals.
Proof.
  refine {| np_sqrt := sqrt;
            find_peaks_cwt := local_maxima;
            rng := unit;
            np_random_seed := λ _, tt;
            np_random_permutation := identity_permutation |}.
  - intros vector widths. unfold local_maxima.
    apply Forall_forall. intros i Hi.
    apply list_elem_of_In, in_map_iff in Hi as (k & <- & Hk).
    apply filter_In in Hk as [Hk _]. apply in_seq in Hk. lia.
  - reflexivity.
Defined.

End Reference.

(** An event of [n] samples at times 0, 1, ... with current 0 throughout. *)
Definition flat_event (n : nat) : event :=
  map (λ k, (of_nat k, 0%Q)) (seq 0 n).

(** An event of fifteen samples with seven local maxima of currents 1 to 7,
    in the order 3, 7, 1, 5, 2, 6, 4. *)
Definition seven_peaks : event :=
  [(0, 0); (1, 3); (2, 0); (3, 7); (4, 0); (5, 1); (6, 0); (7, 5); (8, 0);
   (9, 2); (10, 0); (11, 6); (12, 0); (13, 4); (14, 0)]%Q.

(** An event of six samples whose currents zigzag: 0, 3, 2, 5, 1, 3. *)
Definition zigzag : event :=
  [(0, 0); (1, 3); (2, 2); (3, 5); (4, 1); (5, 3)]%Q.

(** * Properties *)

(** ** Python sequences *)

Section PyLemmas.
Context {A : Type}.
Implicit Types (l : list A) (x : A).

Lemma bind_ok {B C} (m : result B) (f : B → result C) b :
  m = Ok b → (m ≫= f) = f b.
Proof. by intros ->. Qed.

Lemma index_nat l (i : nat) x :
  l !! i = Some x → Py.index l (Z.of_nat i) = Ok x.
Proof.
  intros Hl. unfold Py.index.
  rewrite (proj2 (Z.ltb_ge (Z.of_nat i) 0)) by lia.
  rewrite (proj2 (Z.ltb_ge (Z.of_nat i) 0)) by lia.
  by rewrite Nat2Z.id, Hl.
Qed.

Lemma index_Z l (i : Z) x :
  (0 ≤ i)%Z → l !! Z.to_nat i = Some x → Py.index l i = Ok x.
Proof.
  intros Hi Hl. rewrite <- (Z2Nat.id i) by done. by apply index_nat.
Qed.

Lemma index_first x l : Py.index (x :: l) 0 = Ok x.
Proof. done. Qed.

Lemma index_final l x : Py.index (l ++ [x]) (-1) = Ok x.
Proof.
  unfold Py.index. cbn [Z.ltb Z.compare].
  rewrite length_app. cbn [length].
  rewrite (proj2 (Z.ltb_ge _ 0)) by lia.
  replace (Z.to_nat (-1 + Z.of_nat (length l + 1))) with (length l) by lia.
  by rewrite list_lookup_middle.
Qed.

Lemma index_empty (i : Z) : Py.index (@nil A) i = Raise IndexError.
Proof.
  unfold Py.index. rewrite lookup_nil. by repeat case_match.
Qed.

Lemma range_empty lo hi : (hi ≤ lo)%Z → Py.range lo hi = [].
Proof. intros. unfold Py.range. by replace (Z.to_nat (hi - lo)) with 0 by lia. Qed.

Lemma range_cons lo hi :
  (lo < hi)%Z → Py.range lo hi = lo :: Py.range (lo + 1) hi.
Proof.
  intros. unfold Py.range.
  replace (Z.to_nat (hi - lo)) with (S (Z.to_nat (hi - (lo + 1)))) by lia.
  cbn [seq map]. f_equal; [lia|].
  rewrite <- seq_shift, map_map. apply map_ext. intros; lia.
Qed.

Lemma length_range lo hi : length (Py.range lo hi) = Z.to_nat (hi - lo).
Proof. unfold Py.range. by rewrite length_map, length_seq. Qed.

Lemma elem_of_range lo hi i : i ∈ Py.range lo hi ↔ (lo ≤ i < hi)%Z.
Proof.
  unfold Py.range. rewrite list_elem_of_fmap. split.
  - intros (k & -> & Hk). apply elem_of_seq in Hk. lia.
  - intros Hi. exists (Z.to_nat (i - lo)). split; [lia|].
    apply elem_of_seq. lia.
Qed.

(** Loop invariants for [for i in range(lo, hi)]: an invariant that every
    iteration re-establishes without raising holds at the end, and the
    loop does not raise. *)
Lemma for_range_invariant {S} (P : Z → S → Prop) lo hi
    (body : Z → S → result S) (s : S) :
  P lo s →
  (∀ i s, (lo ≤ i < hi)%Z → P i s → ∃ s', body i s = Ok s' ∧ P (i + 1)%Z s') →
  ∃ s', Py.for_in (Py.range lo hi) body s = Ok s' ∧ P (Z.max lo hi) s'.
Proof.
  remember (Z.to_nat (hi - lo)) as n eqn:Hn.
  revert lo s Hn. induction n as [|n IH]; intros lo s Hn Hinit Hstep.
  - rewrite range_empty by lia. exists s. split; [done|].
    by replace (Z.max lo hi) with lo by lia.
  - rewrite range_cons by lia. cbn [Py.for_in].
    destruct (Hstep lo s) as (s1 & Hb & HP); [lia|done|].
    rewrite (bind_ok _ _ _ Hb).
    destruct (IH (lo + 1)%Z s1) as (s' & Hfor & HP'); [lia|done| |].
    { intros i s2 Hi. apply Hstep. lia. }
    exists s'. split; [done|].
    by replace (Z.max lo hi) with (Z.max (lo + 1) hi) by lia.
Qed.

(** Two runs of a loop over the same items keep a relation between their
    states, when one iteration of each does. *)
Lemma for_in_related {I S} (R : S → S → Prop) (xs : list I)
    (body1 body2 : I → S → result S) s1 s2 r1 r2 :
  (∀ i a b a' b', R a b → body1 i a = Ok a' → body2 i b = Ok b' → R a' b') →
  R s1 s2 →
  Py.for_in xs body1 s1 = Ok r1 →
  Py.for_in xs body2 s2 = Ok r2 →
  R r1 r2.
Proof.
  intros Hstep. revert s1 s2.
  induction xs as [|x xs IH]; cbn [Py.for_in]; intros s1 s2 HR H1 H2.
  - by simplify_eq.
  - destruct (body1 x s1) as [a'|] eqn:Hb1; [|done].
    destruct (body2 x s2) as [b'|] eqn:Hb2; [|done].
    eapply IH; [|exact H1|exact H2]. eauto.
Qed.

Lemma comprehension_ok {I B} (f : I → result B) (g : I → B) (xs : list I) :
  (∀ i, i ∈ xs → f i = Ok (g i)) →
  Py.comprehension f xs = Ok (map g xs).
Proof.
  induction xs as [|i xs IH]; intros Hf; [done|].
  cbn [Py.comprehension map].
  rewrite (Hf i) by left. cbn.
  rewrite IH; [done|]. intros y Hy. apply Hf. by right.
Qed.

End PyLemmas.

(** ** [find_extrema] *)

Section FindExtrema.
Implicit Types (ev extrema : list sample) (th : Q).

Lemma index_final_cons {A} (x : A) (l : list A) :
  ∃ y, Py.index (x :: l) (-1) = Ok y ∧ last (x :: l) = Some y.
Proof.
  destruct (exists_last (l:=x :: l)) as (l' & y & ->); [done|].
  exists y. by rewrite index_final, last_snoc.
Qed.

(** One iteration on an interior index never raises, and either keeps the
    extrema or appends the sample at that index. *)
Lemma find_extrema_body_cases ev th i first mid :
  (1 ≤ i)%Z → (i + 1 < Z.of_nat (length ev))%Z →
  ∃ this, ev !! Z.to_nat i = Some this ∧
    (find_extrema_body ev th i (first :: mid) = Ok (first :: mid) ∨
     find_extrema_body ev th i (first :: mid) = Ok (first :: mid ++ [this])).
Proof.
  intros Hi Hn.
  destruct (lookup_lt_is_Some_2 ev (Z.to_nat i)) as [this Hthis]; [lia|].
  destruct (lookup_lt_is_Some_2 ev (Z.to_nat (i - 1))) as [prev Hprev]; [lia|].
  destruct (lookup_lt_is_Some_2 ev (Z.to_nat (i + 1))) as [next Hnext]; [lia|].
  exists this. split; [done|]. unfold find_extrema_body.
  rewrite (index_Z ev i this), (index_Z ev (i - 1) prev),
    (index_Z ev (i + 1) next); [|lia|done|lia|done|lia|done]. cbn.
  destruct (Qle_bool _ _); [|by left].
  destruct (index_final_cons first mid) as (y & -> & _). cbn.
  destruct (Qgt_bool _ _); [by right|by left].
Qed.

Lemma interior_split ev :
  length ev ≥ 2 →
  ∃ first inner final,
    ev = first :: inner ++ [final] ∧ interior ev = inner.
Proof.
  intros Hlen. destruct ev as [|first rest]; [cbn in Hlen; lia|].
  destruct (exists_last (l:=rest)) as (inner & final & ->).
  { intros ->. cbn in Hlen. lia. }
  exists first, inner, final. split; [done|].
  unfold interior. cbn [drop length].
  rewrite length_app. cbn [length].
  replace (S (length inner + 1) - 2) with (length inner) by lia.
  by rewrite drop_0, take_app_length.
Qed.

Lemma find_extrema_loop ev th first :
  ev !! 0 = Some first →
  ∃ mid,
    Py.for_in (Py.range 1 (Z.of_nat (length ev) - 1))
              (find_extrema_body ev th) [first] = Ok (first :: mid)
    ∧ mid `sublist_of` interior ev.
Proof.
  intros Hfirst.
  destruct (for_range_invariant
    (λ i extrema, ∃ mid, extrema = first :: mid
       ∧ mid `sublist_of` take (Z.to_nat i - 1) (drop 1 ev))
    1 (Z.of_nat (length ev) - 1) (find_extrema_body ev th) [first])
    as (extrema & Hfor & mid & -> & Hsub).
  - exists []. split; [done|]. apply sublist_nil_l.
  - intros i extrema Hi (mid & -> & Hsub).
    destruct (find_extrema_body_cases ev th i first mid)
      as (this & Hthis & Hb); [lia|lia|].
    assert (take (Z.to_nat (i + 1) - 1) (drop 1 ev)
            = take (Z.to_nat i - 1) (drop 1 ev) ++ [this]) as ->.
    { replace (Z.to_nat (i + 1) - 1) with (S (Z.to_nat i - 1)) by lia.
      apply take_S_r. rewrite lookup_drop.
      by replace (1 + (Z.to_nat i - 1)) with (Z.to_nat i) by lia. }
    destruct Hb as [Hb|Hb]; (eexists; split; [exact Hb|]).
    + exists mid. split; [done|]. by apply sublist_inserts_r.
    + exists (mid ++ [this]). split; [done|]. by apply sublist_app.
  - exists mid. split; [done|]. unfold interior.
    by replace (length ev - 2)
      with (Z.to_nat (Z.max 1 (Z.of_nat (length ev) - 1)) - 1) by lia.
Qed.

(** The shape of every result of [find_extrema] on a non-empty event. *)
Lemma find_extrema_spec ev th first :
  ev !! 0 = Some first →
  ∃ mid final,
    last ev = Some final
    ∧ find_extrema ev th = Ok (first :: mid ++ [final])
    ∧ mid `sublist_of` interior ev.
Proof.
  intros Hfirst.
  destruct (find_extrema_loop ev th first Hfirst) as (mid & Hloop & Hsub).
  destruct ev as [|x rest]; [done|]. cbn in Hfirst. simplify_eq.
  destruct (index_final_cons first rest) as (final & Hfinal & Hlast).
  exists mid, final. split; [done|]. split; [|done].
  unfold find_extrema.
  rewrite (bind_ok _ _ _ (index_first first rest)).
  rewrite (bind_ok _ _ _ Hloop).
  by rewrite (bind_ok _ _ _ Hfinal).
Qed.

End FindExtrema.

(** C3. On an event of at least two samples [find_extrema] returns, for
    every threshold, a sequence that starts with the first sample of the
    event, ends with its last sample and lists samples of the event in their
    original order; on an event of exactly two samples it returns the two
    endpoints. *)
Theorem find_extrema_endpoints (ev : event) (th : Q) :
  length ev ≥ 2 →
  ∃ extrema first final,
    find_extrema ev th = Ok extrema
    ∧ Py.index ev 0 = Ok first ∧ Py.index ev (-1) = Ok final
    ∧ Py.index extrema 0 = Ok first ∧ Py.index extrema (-1) = Ok final
    ∧ extrema `sublist_of` ev
    ∧ (length ev = 2 → extrema = [first; final] ∧ extrema = ev).
Proof.
  intros Hlen.
  destruct (interior_split ev Hlen) as (first & inner & final & Hev & Hint).
  destruct (find_extrema_spec ev th first) as (mid & final' & Hlast & Hfe & Hsub).
  { by rewrite Hev. }
  rewrite Hint in Hsub.
  assert (final' = final) as ->.
  { rewrite Hev in Hlast.
    change (first :: inner ++ [final]) with ((first :: inner) ++ [final]) in Hlast.
    rewrite last_snoc in Hlast. by simplify_eq. }
  exists (first :: mid ++ [final]), first, final.
  split; [done|]. rewrite Hev.
  split; [done|]. split; [apply (index_final (first :: inner))|].
  split; [done|]. split; [apply (index_final (first :: mid))|].
  split.
  - apply sublist_skip, sublist_app; [done|]. apply sublist_skip, sublist_nil.
  - cbn [length]. rewrite length_app. cbn [length]. intros Hn.
    destruct inner; [|cbn in Hn; lia].
    apply sublist_nil_r in Hsub as ->. done.
Qed.

Lemma find_extrema_endpoints_witness :
  ∃ extrema first final,
    find_extrema zigzag 2 = Ok extrema
    ∧ Py.index zigzag 0 = Ok first ∧ Py.index zigzag (-1) = Ok final
    ∧ Py.index extrema 0 = Ok first ∧ Py.index extrema (-1) = Ok final
    ∧ extrema `sublist_of` zigzag
    ∧ (length zigzag = 2 → extrema = [first; final] ∧ extrema = zigzag).
Proof. apply (find_extrema_endpoints zigzag 2). cbn. lia. Defined.

(** *** The threshold and the number of extrema *)

Section Threshold.
Implicit Types (ev extrema : list sample) (th : Q).

Lemma Qgt_bool_true (x y : Q) : Qgt_bool x y = true ↔ (y < x)%Q.
Proof.
  unfold Qgt_bool. rewrite negb_true_iff, <- not_true_iff_false, Qle_bool_iff.
  split; [apply Qnot_le_lt|apply Qlt_not_le].
Qed.

Lemma Qgt_bool_false (x y : Q) : Qgt_bool x y = false ↔ (x <= y)%Q.
Proof. unfold Qgt_bool. by rewrite negb_false_iff, Qle_bool_iff. Qed.

(** With threshold 0 a candidate is rejected only when its current is
    the current of the last accepted extremum. *)
Lemma rejected_at_zero (c l : Q) :
  Qgt_bool (Qabs (c - l)) 0 = false → (c == l)%Q.
Proof.
  rewrite Qgt_bool_false, Qabs_diff_Qle_condition. intros [? ?]. lra.
Qed.

(** With a threshold of at least 0 an accepted candidate differs in
    current from the last accepted extremum. *)
Lemma accepted_differs (c l th : Q) :
  (0 <= th)%Q → Qgt_bool (Qabs (c - l)) th = true → ¬ (c == l)%Q.
Proof.
  rewrite Qgt_bool_true. intros Hth Hlt Heq.
  apply (Qlt_not_le _ _ Hlt), Qabs_diff_Qle_condition. lra.
Qed.

Lemma index_final_last {A} (l : list A) (x : A) :
  Py.index l (-1) = Ok x → last l = Some x.
Proof.
  destruct l as [|y l]; [by rewrite index_empty|].
  destruct (index_final_cons y l) as (z & -> & ->). congruence.
Qed.

(** The relation kept between the run with threshold 0 and the run with a
    threshold [th ≥ 0], iteration by iteration: the second never holds
    more extrema, and when it holds as many, both last extrema carry the
    same current. *)
Lemma find_extrema_body_zero ev th i (a b a' b' : list sample) :
  (0 <= th)%Q →
  length b ≤ length a
    ∧ (length b < length a
       ∨ ∃ x y, last a = Some x ∧ last b = Some y ∧ (current x == current y)%Q) →
  find_extrema_body ev 0 i a = Ok a' →
  find_extrema_body ev th i b = Ok b' →
  length b' ≤ length a'
    ∧ (length b' < length a'
       ∨ ∃ x y, last a' = Some x ∧ last b' = Some y ∧ (current x == current y)%Q).
Proof.
  intros Hth [Hlen Hlast]. unfold find_extrema_body.
  destruct (Py.index ev i) as [this|]; [|done].
  destruct (Py.index ev (i - 1)) as [prev|]; [|done].
  destruct (Py.index ev (i + 1)) as [next|]; [|done].
  unfold mbind, result_bind. cbv beta iota zeta.
  destruct (Qle_bool _ _); [|intros; by simplify_eq].
  destruct (Py.index a (-1)) as [la|] eqn:Hla; [|done].
  destruct (Py.index b (-1)) as [lb|] eqn:Hlb; [|done].
  apply index_final_last in Hla, Hlb.
  destruct (Qgt_bool (Qabs (current this - current la)) 0) eqn:H0;
    destruct (Qgt_bool (Qabs (current this - current lb)) th) eqn:Hb;
    intros; simplify_eq; rewrite ?length_app, ?last_snoc; cbn [length].
  - split; [lia|]. right. by exists this, this.
  - split; [lia|]. left. lia.
  - apply rejected_at_zero in H0.
    destruct Hlast as [?|(x & y & ? & ? & Hxy)].
    + split; [lia|]. right. exists la, this. by rewrite H0.
    + simplify_eq. exfalso.
      apply (accepted_differs _ _ _ Hth Hb). by rewrite H0.
  - done.
Qed.

End Threshold.

(** C4, as the code has it. The extrema for threshold 0 are at least as many
    as the extrema for any threshold [th ≥ 0], on every event of at least
    two samples. *)
Theorem find_extrema_zero_threshold_longest (ev : event) (th : Q) :
  length ev ≥ 2 → (0 <= th)%Q →
  ∃ extrema_0 extrema_th,
    find_extrema ev 0 = Ok extrema_0
    ∧ find_extrema ev th = Ok extrema_th
    ∧ length extrema_0 ≥ length extrema_th.
Proof.
  intros Hlen Hth.
  destruct ev as [|first rest]; [cbn in Hlen; lia|].
  destruct (find_extrema_loop (first :: rest) 0 first) as (mid0 & Hloop0 & _); [done|].
  destruct (find_extrema_loop (first :: rest) th first) as (mid & Hloop & _); [done|].
  destruct (index_final_cons first rest) as (final & Hfinal & _).
  exists ((first :: mid0) ++ [final]), ((first :: mid) ++ [final]).
  unfold find_extrema.
  rewrite !(bind_ok _ _ _ (index_first first rest)).
  rewrite (bind_ok _ _ _ Hloop0), (bind_ok _ _ _ Hloop), !(bind_ok _ _ _ Hfinal).
  split; [done|]. split; [done|].
  rewrite !length_app. cbn [length].
  assert (length (first :: mid) ≤ length (first :: mid0)) as Hle.
  { eapply (for_in_related
      (λ a b : list sample, length b ≤ length a
        ∧ (length b < length a
           ∨ ∃ x y, last a = Some x ∧ last b = Some y
                    ∧ (current x == current y)%Q))
      (Py.range 1 (Z.of_nat (length (first :: rest)) - 1))
      (find_extrema_body (first :: rest) 0)
      (find_extrema_body (first :: rest) th) [first] [first]).
    - intros i a b a' b' HR Ha Hb.
      exact (find_extrema_body_zero _ _ _ _ _ _ _ Hth HR Ha Hb).
    - split; [done|]. right. by exists first, first.
    - exact Hloop0.
    - exact Hloop. }
  cbn [length] in Hle. lia.
Qed.

Lemma find_extrema_zero_threshold_longest_witness :
  length zigzag ≥ 2 ∧ (0 <= 3)%Q ∧
  ∃ extrema_0 extrema_th,
    find_extrema zigzag 0 = Ok extrema_0
    ∧ find_extrema zigzag 3 = Ok extrema_th
    ∧ length extrema_0 ≥ length extrema_th.
Proof.
  split; [cbn; lia|]. split; [discriminate|].
  apply (find_extrema_zero_threshold_longest zigzag 3); [cbn; lia|discriminate].
Defined.

(** C4 as the specification words it fails: on [zigzag] the threshold 2
    keeps three extrema and the larger threshold 3 keeps four. *)
Lemma find_extrema_not_monotone :
  length zigzag ≥ 2 ∧ (0 <= 2)%Q ∧ (2 < 3)%Q
  ∧ find_extrema zigzag 2 = Ok [(0, 0); (1, 3); (5, 3)]%Q
  ∧ find_extrema zigzag 3 = Ok [(0, 0); (3, 5); (4, 1); (5, 3)]%Q
  ∧ ¬ (length [(0, 0); (1, 3); (5, 3)]%Q
        ≥ length [(0, 0); (3, 5); (4, 1); (5, 3)]%Q).
Proof.
  split; [cbn; lia|]. split; [discriminate|]. split; [reflexivity|].
  split; [vm_compute; reflexivity|]. split; [vm_compute; reflexivity|].
  cbn. lia.
Qed.

(** ** [build_features] *)

Section BuildFeatures.
Context `{Externals}.
Implicit Types (ev extrema : list sample) (th : Q).

Lemma index_cons_succ {A} (x : A) (l : list A) (i : Z) :
  (0 ≤ i)%Z → Py.index (x :: l) (i + 1) = Py.index l i.
Proof.
  intros Hi. unfold Py.index. cbv zeta.
  rewrite (proj2 (Z.ltb_ge (i + 1) 0)), (proj2 (Z.ltb_ge i 0)) by lia.
  cbv iota.
  rewrite (proj2 (Z.ltb_ge (i + 1) 0)), (proj2 (Z.ltb_ge i 0)) by lia.
  by replace (Z.to_nat (i + 1)) with (S (Z.to_nat i)) by lia.
Qed.

Lemma range_succ lo hi :
  Py.range (lo + 1) (hi + 1) = map Z.succ (Py.range lo hi).
Proof.
  unfold Py.range. rewrite map_map.
  replace (Z.to_nat (hi + 1 - (lo + 1))) with (Z.to_nat (hi - lo)) by lia.
  apply map_ext. intros; lia.
Qed.

Lemma comprehension_ext {I B} (f g : I → result B) (xs : list I) :
  (∀ i, i ∈ xs → f i = g i) →
  Py.comprehension f xs = Py.comprehension g xs.
Proof.
  induction xs as [|i xs IH]; intros Hfg; [done|].
  cbn [Py.comprehension]. rewrite (Hfg i) by left.
  rewrite IH; [done|]. intros j Hj. apply Hfg. by right.
Qed.

Lemma comprehension_map {I J B} (f : J → result B) (h : I → J) (xs : list I) :
  Py.comprehension f (map h xs) = Py.comprehension (λ i, f (h i)) xs.
Proof.
  induction xs as [|i xs IH]; [done|].
  cbn [Py.comprehension map]. by rewrite IH.
Qed.

(** The index-based list of line 89 is the list of differences between
    consecutive extrema currents. *)
Lemma extrema_diffs_consecutive extrema :
  extrema_diffs extrema = Ok (consecutive_diffs (map current extrema)).
Proof.
  unfold extrema_diffs.
  induction extrema as [|x extrema IH]; [done|].
  destruct extrema as [|y extrema]; [done|].
  cbn [length] in *.
  rewrite range_cons by lia. cbn [Py.comprehension].
  change (extrema_diff_at (x :: y :: extrema) 1)
    with (Ok (current y - current x)%Q).
  replace (Z.of_nat (S (S (length extrema))))
    with (Z.of_nat (S (length extrema)) + 1)%Z by lia.
  rewrite (range_succ 1), comprehension_map.
  rewrite (comprehension_ext _ (extrema_diff_at (y :: extrema))).
  - by rewrite IH.
  - intros i Hi%elem_of_range. unfold extrema_diff_at.
    replace (Z.succ i) with (i + 1)%Z by lia.
    rewrite index_cons_succ by lia.
    replace (i + 1 - 1)%Z with (i - 1 + 1)%Z by lia.
    by rewrite index_cons_succ by lia.
Qed.

Lemma length_consecutive_diffs (l : list Q) :
  length (consecutive_diffs l) = length l - 1.
Proof.
  unfold consecutive_diffs. rewrite length_zip_with, length_drop. lia.
Qed.

Lemma take_indices_ok {A} (l : list A) (idxs : list Z) :
  Forall (λ i, (0 ≤ i < Z.of_nat (length l))%Z) idxs →
  ∃ rows, Py.take_indices l idxs = Ok rows
          ∧ Forall2 (λ i x, l !! Z.to_nat i = Some x) idxs rows.
Proof.
  unfold Py.take_indices.
  induction 1 as [|i idxs Hi _ (rows & IH & Hrows)]; [by exists []|].
  destruct (lookup_lt_is_Some_2 l (Z.to_nat i)) as [x Hx]; [lia|].
  exists (x :: rows). cbn [Py.comprehension].
  rewrite (index_Z l i x), IH; [|lia|done].
  split; [done|]. by constructor.
Qed.

Lemma peak_or_zero_nth (peaks : list Q) (k : nat) :
  peak_or_zero peaks k = Ok (nth k peaks 0%Q).
Proof.
  unfold peak_or_zero. case_decide as Hk.
  - apply index_nat.
    destruct (nth_lookup_or_length peaks k 0%Q); [done|lia].
  - by rewrite nth_overflow by lia.
Qed.

Lemma build_features_empty th : build_features [] th = Ok features_init.
Proof. done. Qed.

(** The width handed to the peak detector: [max([1, duration])]. *)
Lemma py_max_width (duration : Q) :
  py_max [1%Q; duration]
  = Ok (if Qgt_bool duration 1 then duration else 1%Q).
Proof. done. Qed.

(** What [build_features] computes on a non-empty window, step by step:
    no step raises, and the result is the dictionary [features_of]. *)
Lemma build_features_nonempty ev th :
  length ev > 0 →
  ∃ final max_current min_current extrema widths rows,
    Py.index ev (-1) = Ok final
    ∧ np_max (map current ev) = Ok max_current
    ∧ np_min (map current ev) = Ok min_current
    ∧ find_extrema ev th = Ok extrema
    ∧ length extrema ≥ 2
    ∧ py_max [1%Q; time final] = Ok widths
    ∧ Py.take_indices ev (find_peaks_cwt (map current ev) widths) = Ok rows
    ∧ build_features ev th
      = Ok (features_of ev final max_current min_current extrema
              (find_peaks_cwt (map current ev) widths)
              (sorted_reverse (map current rows))).
Proof.
  intros Hlen. destruct ev as [|first rest]; [cbn in Hlen; lia|].
  destruct (index_final_cons first rest) as (final & Hfinal & _).
  destruct (find_extrema_spec (first :: rest) th first)
    as (mid & final' & _ & Hextrema & _); [done|].
  set (ev := first :: rest) in *.
  set (extrema := first :: mid ++ [final']) in *.
  set (widths := if Qgt_bool (time final) 1 then time final else 1%Q).
  destruct (take_indices_ok ev (find_peaks_cwt (map current ev) widths))
    as (rows & Hrows & Hlookup).
  { eapply Forall_impl; [apply find_peaks_cwt_in_range|].
    intros i. cbv beta. by rewrite length_map. }
  exists final, (foldl (λ m y, if Qgt_bool y m then y else m)
                       (current first) (map current rest)),
    (foldl (λ m y, if Qgt_bool m y then y else m)
           (current first) (map current rest)),
    extrema, widths, rows.
  split; [done|]. split; [done|]. split; [done|]. split; [done|].
  split. { unfold extrema. cbn [length]. rewrite length_app. cbn. lia. }
  split; [done|]. split; [done|].
  unfold build_features. rewrite decide_True by done.
  rewrite (bind_ok _ _ _ Hfinal).
  rewrite (bind_ok (np_max (map current ev)) _ _ eq_refl).
  rewrite (bind_ok (np_min (map current ev)) _ _ eq_refl).
  rewrite (bind_ok _ _ _ Hextrema).
  rewrite (bind_ok _ _ _ (extrema_diffs_consecutive extrema)).
  rewrite (bind_ok _ _ _ Hfinal).
  rewrite (bind_ok _ _ _ (py_max_width (time final))).
  fold widths. unfold features_of.
  destruct (decide (length (find_peaks_cwt (map current ev) widths) > 0))
    as [Hpeaks|Hpeaks].
  - rewrite (bind_ok _ _ _ Hrows).
    by rewrite !(bind_ok _ _ _ (peak_or_zero_nth _ _)).
  - destruct (find_peaks_cwt (map current ev) widths); [|cbn in Hpeaks; lia].
    cbn in Hrows. by simplify_eq.
Qed.

(** [build_features] never raises, and never changes the keys of the
    dictionary it starts from. *)
Lemma build_features_keys ev th :
  ∃ features, build_features ev th = Ok features
              ∧ dict_keys features = dict_keys features_init.
Proof.
  destruct (decide (length ev > 0)) as [Hlen|Hlen].
  - destruct (build_features_nonempty ev th Hlen)
      as (? & ? & ? & ? & ? & ? & _ & _ & _ & _ & _ & _ & _ & ->).
    by eexists.
  - destruct ev; [|cbn in Hlen; lia]. by eexists.
Qed.

End BuildFeatures.

(** ** Sorting and averaging the peaks *)

Section Peaks.
Implicit Types (l : list Q) (x : Q).

Lemma insert_desc_perm x l : insert_desc x l ≡ₚ x :: l.
Proof.
  induction l as [|y l IH]; [done|]. cbn [insert_desc].
  destruct (Qgt_bool y x); [|done].
  rewrite IH. apply Permutation_swap.
Qed.

Lemma sorted_reverse_perm l : sorted_reverse l ≡ₚ l.
Proof.
  induction l as [|x l IH]; [done|].
  cbn [sorted_reverse foldr]. rewrite insert_desc_perm.
  by apply Permutation_skip.
Qed.

Lemma insert_desc_sorted x l :
  StronglySorted (λ a b, b <= a)%Q l →
  StronglySorted (λ a b, b <= a)%Q (insert_desc x l).
Proof.
  induction 1 as [|y l Hsorted IH Hall]; cbn [insert_desc].
  - repeat constructor.
  - destruct (Qgt_bool y x) eqn:Hyx.
    + constructor; [done|].
      rewrite insert_desc_perm. constructor; [|done].
      apply Qgt_bool_true in Hyx. by apply Qlt_le_weak.
    + apply Qgt_bool_false in Hyx.
      constructor; [by constructor|]. constructor; [done|].
      eapply Forall_impl; [exact Hall|].
      intros z Hz. cbv beta in *. by apply (Qle_trans z y x).
Qed.

Lemma sorted_reverse_sorted l :
  StronglySorted (λ a b, b <= a)%Q (sorted_reverse l).
Proof.
  induction l as [|x l IH]; [constructor|].
  cbn [sorted_reverse foldr]. by apply insert_desc_sorted.
Qed.

Lemma np_sum_perm l l' : l ≡ₚ l' → (np_sum l == np_sum l')%Q.
Proof.
  induction 1 as [|x l l' _ IH|x y l|l l' l'' _ IH1 _ IH2]; cbn [np_sum foldr].
  - done.
  - fold (np_sum l) (np_sum l'). by rewrite IH.
  - ring.
  - by etrans.
Qed.

Lemma np_mean_perm l l' : l ≡ₚ l' → (np_mean l == np_mean l')%Q.
Proof.
  intros Hperm. unfold np_mean.
  by rewrite (np_sum_perm l l' Hperm), (Permutation_length Hperm).
Qed.

Lemma flatten_perm (a : list sample) :
  flatten a ≡ₚ map time a ++ map current a.
Proof.
  induction a as [|s a IH]; [done|].
  change (flatten (s :: a)) with (time s :: current s :: flatten a).
  cbn [map app]. rewrite IH. apply Permutation_skip, Permutation_middle.
Qed.

Lemma length_flatten (a : list sample) : length (flatten a) = 2 * length a.
Proof.
  induction a as [|s a IH]; [done|].
  change (flatten (s :: a)) with (time s :: current s :: flatten a).
  cbn [length]. lia.
Qed.

Lemma py_max_width_Qmax (duration : Q) :
  ((if Qgt_bool duration 1 then duration else 1) == Qmax 1 duration)%Q.
Proof.
  destruct (Qgt_bool duration 1) eqn:Hd.
  - apply Qgt_bool_true in Hd. symmetry. apply Q.max_r. by apply Qlt_le_weak.
  - apply Qgt_bool_false in Hd. symmetry. by apply Q.max_l.
Qed.

End Peaks.

(** C2. On the empty window [build_features] returns the initial dictionary:
    its 17 fields, in the fixed order, all hold 0. *)
Theorem build_features_empty_window `{Externals} (extrema_th : Q) :
  ∃ features,
    build_features [] extrema_th = Ok features
    ∧ dict_keys features =
        [ "num_signals"; "duration"; "max_current"; "min_current";
          "mean_current"; "std_current"; "num_extrema"; "mean_extrema";
          "std_extrema"; "mean_extrema_diff"; "num_peaks"; "mean_peaks";
          "peak_1"; "peak_2"; "peak_3"; "peak_4"; "peak_5" ]
    ∧ dict_values features = replicate 17 0%Q.
Proof. by exists features_init. Qed.

(** C8. On a non-empty window, [num_extrema] is the number of extrema that
    [find_extrema] returns, [mean_extrema] and [std_extrema] are the mean and
    the standard deviation of the times and the currents of the extrema taken
    together (twice as many numbers as extrema), and [mean_extrema_diff] is
    the mean of the absolute differences between consecutive extrema
    currents. *)
Theorem build_features_extrema `{Externals}
    (first : sample) (rest : list sample) (extrema_th : Q) :
  let window := first :: rest in
  ∃ features extrema,
    build_features window extrema_th = Ok features
    ∧ find_extrema window extrema_th = Ok extrema
    ∧ dict_get "num_extrema" features = Some (of_nat (length extrema))
    ∧ dict_get "mean_extrema" features = Some (np_mean (flatten extrema))
    ∧ dict_get "std_extrema" features = Some (np_std (flatten extrema))
    ∧ flatten extrema ≡ₚ map time extrema ++ map current extrema
    ∧ length (flatten extrema) = 2 * length extrema
    ∧ dict_get "mean_extrema_diff" features
      = Some (np_mean (map Qabs (consecutive_diffs (map current extrema)))).
Proof.
  intros window.
  destruct (build_features_nonempty window extrema_th)
    as (final & mx & mn & extrema & widths & rows
        & _ & _ & _ & Hextrema & _ & _ & _ & Hfeatures).
  { cbn. lia. }
  eexists _, extrema. split; [exact Hfeatures|]. split; [done|].
  split; [done|]. split; [done|]. split; [done|].
  split; [apply flatten_perm|]. split; [apply length_flatten|]. done.
Qed.

(** C9. On a non-empty window the peak detector is called on the current
    column with the width [max(1, duration)], where [duration] is the time of
    the last sample; [num_peaks] is the number of indices it returns. The
    peak currents are sorted in descending order; [peak_1] to [peak_5] are
    the first five of them, 0 standing in for a missing one. With at least
    one peak [mean_peaks] is the mean of the peak currents; with none,
    [mean_peaks] and [peak_1] to [peak_5] are 0. *)
Theorem build_features_peaks `{Externals}
    (first : sample) (rest : list sample) (extrema_th : Q) :
  let window := first :: rest in
  ∃ features final widths rows,
    build_features window extrema_th = Ok features
    ∧ Py.index window (-1) = Ok final
    ∧ (widths == Qmax 1 (time final))%Q
    ∧ let peaks_idx := find_peaks_cwt (map current window) widths in
      let peaks := sorted_reverse (map current rows) in
      Forall2 (λ i row, window !! Z.to_nat i = Some row) peaks_idx rows
      ∧ peaks ≡ₚ map current rows
      ∧ StronglySorted (λ a b, b <= a)%Q peaks
      ∧ dict_get "num_peaks" features = Some (of_nat (length peaks_idx))
      ∧ dict_get "peak_1" features = Some (nth 0 peaks 0%Q)
      ∧ dict_get "peak_2" features = Some (nth 1 peaks 0%Q)
      ∧ dict_get "peak_3" features = Some (nth 2 peaks 0%Q)
      ∧ dict_get "peak_4" features = Some (nth 3 peaks 0%Q)
      ∧ dict_get "peak_5" features = Some (nth 4 peaks 0%Q)
      ∧ (length peaks_idx > 0 →
           dict_get "mean_peaks" features = Some (np_mean peaks)
           ∧ (np_mean peaks == np_mean (map current rows))%Q)
      ∧ (length peaks_idx = 0 →
           Forall (λ k, dict_get k features = Some 0%Q)
             ["mean_peaks"; "peak_1"; "peak_2"; "peak_3"; "peak_4"; "peak_5"]).
Proof.
  intros window.
  destruct (build_features_nonempty window extrema_th)
    as (final & mx & mn & extrema & widths & rows
        & Hfinal & _ & _ & _ & _ & Hwidths & Hrows & Hfeatures).
  { cbn. lia. }
  rewrite py_max_width in Hwidths. injection Hwidths as Hwidths.
  exists (features_of window final mx mn extrema
            (find_peaks_cwt (map current window) widths)
            (sorted_reverse (map current rows))), final, widths, rows.
  split; [done|]. split; [done|].
  split. { rewrite <- Hwidths. apply py_max_width_Qmax. }
  cbv zeta.
  destruct (take_indices_ok window (find_peaks_cwt (map current window) widths))
    as (rows' & Hrows' & Hlookup).
  { eapply Forall_impl; [apply find_peaks_cwt_in_range|].
    intros i. cbv beta. by rewrite length_map. }
  assert (rows' = rows) as -> by congruence.
  split; [done|]. split; [apply sorted_reverse_perm|].
  split; [apply sorted_reverse_sorted|].
  split; [done|]. split; [done|]. split; [done|]. split; [done|].
  split; [done|]. split; [done|]. split.
  - intros Hpeaks. split.
    + unfold features_of. by rewrite decide_True by done.
    + apply np_mean_perm, sorted_reverse_perm.
  - intros Hpeaks.
    destruct (find_peaks_cwt (map current window) widths); [|done].
    apply Forall2_nil_inv_l in Hlookup as ->.
    by repeat constructor.
Qed.

(** The peak ranking on [seven_peaks], with the local-maxima detector: seven
    peaks are counted, and the five largest are kept in descending order. *)
Example build_features_seven_peaks :
  ∃ features,
    @build_features Reference.externals seven_peaks 0 = Ok features
    ∧ dict_get "num_signals" features = Some 15%Q
    ∧ dict_get "duration" features = Some 14%Q
    ∧ dict_get "max_current" features = Some 7%Q
    ∧ dict_get "min_current" features = Some 0%Q
    ∧ dict_get "num_extrema" features = Some 15%Q
    ∧ dict_get "num_peaks" features = Some 7%Q
    ∧ dict_get "peak_1" features = Some 7%Q
    ∧ dict_get "peak_2" features = Some 6%Q
    ∧ dict_get "peak_3" features = Some 5%Q
    ∧ dict_get "peak_4" features = Some 4%Q
    ∧ dict_get "peak_5" features = Some 3%Q
    ∧ length (dict_values features) = 17.
Proof.
  eexists. split; [vm_compute; reflexivity|].
  repeat split; vm_compute; reflexivity.
Qed.

(** C10. On an event of at least one sample [find_extrema] returns at least
    two samples, whatever the threshold; on a single sample it returns that
    sample twice. So in [build_features], on a non-empty window, the list of
    differences between consecutive extrema currents has at least one
    element, and [mean_extrema_diff] is the mean of that non-empty list. *)
Theorem find_extrema_at_least_two `{Externals} (ev : event) (extrema_th : Q) :
  length ev ≥ 1 →
  ∃ extrema diffs features,
    find_extrema ev extrema_th = Ok extrema
    ∧ length extrema ≥ 2
    ∧ (∀ s, ev = [s] → extrema = [s; s])
    ∧ extrema_diffs extrema = Ok diffs
    ∧ length diffs = length extrema - 1
    ∧ diffs ≠ []
    ∧ build_features ev extrema_th = Ok features
    ∧ dict_get "mean_extrema_diff" features = Some (np_mean (map Qabs diffs)).
Proof.
  intros Hlen.
  destruct (build_features_nonempty ev extrema_th)
    as (final & mx & mn & extrema & widths & rows
        & _ & _ & _ & Hextrema & Htwo & _ & _ & Hfeatures); [lia|].
  exists extrema, (consecutive_diffs (map current extrema)). eexists.
  split; [done|]. split; [done|]. split.
  { intros s ->. vm_compute in Hextrema. by simplify_eq. }
  split; [apply extrema_diffs_consecutive|].
  assert (length (consecutive_diffs (map current extrema)) = length extrema - 1)
    as Hdiffs by by rewrite length_consecutive_diffs, length_map.
  split; [done|]. split.
  { intros Hnil. rewrite Hnil in Hdiffs. cbn in Hdiffs. lia. }
  split; [exact Hfeatures|]. done.
Qed.

Lemma find_extrema_at_least_two_witness :
  length zigzag ≥ 1 ∧
  ∃ extrema diffs features,
    find_extrema zigzag 2 = Ok extrema
    ∧ length extrema ≥ 2
    ∧ (∀ s, zigzag = [s] → extrema = [s; s])
    ∧ extrema_diffs extrema = Ok diffs
    ∧ length diffs = length extrema - 1
    ∧ diffs ≠ []
    ∧ @build_features Reference.externals zigzag 2 = Ok features
    ∧ dict_get "mean_extrema_diff" features = Some (np_mean (map Qabs diffs)).
Proof.
  split; [cbn; lia|].
  apply (@find_extrema_at_least_two Reference.externals zigzag 2). cbn. lia.
Defined.

(** ** [_process_event] *)

Section ProcessEvent.
Context `{Externals}.
Implicit Types (ev : event) (th : Q).

(** A window that starts at or after the end of the event is empty. *)
Lemma slice_past_end {A} (l : list A) (lo hi : Z) :
  (Z.of_nat (length l) ≤ lo)%Z → Py.slice l lo hi = [].
Proof.
  intros Hlo. unfold Py.slice, Py.clip.
  rewrite (proj2 (Z.ltb_ge lo 0)) by lia.
  rewrite (Nat.min_r (Z.to_nat lo) (length l)) by lia.
  by rewrite drop_all, take_nil.
Qed.

Lemma ceil_div_spec (a b : Z) :
  (0 < b)%Z →
  ∃ q, Py.ceil_div a b = Ok q ∧ (a ≤ q * b < a + b)%Z.
Proof.
  intros Hb. unfold Py.ceil_div.
  rewrite (proj2 (Z.eqb_neq b 0)) by lia.
  eexists. split; [done|].
  pose proof (Z.mul_div_le (- a) b Hb).
  pose proof (Z.mul_succ_div_gt (- a) b Hb). lia.
Qed.

Lemma length_dict_values (d d' : dict) :
  dict_keys d = dict_keys d' → length (dict_values d) = length (dict_values d').
Proof.
  unfold dict_keys, dict_values. intros Hkeys.
  rewrite !length_map. by rewrite <- (length_map fst d), Hkeys, length_map.
Qed.

(** The loop of [_process_event] for a resolved step size. *)
Lemma process_event_loop ev (timesteps step : Z) th :
  ∃ rows,
    Py.for_in (Py.range 0 timesteps)
      (λ i compressed_event,
         let sub_event := Py.slice ev (i * step)%Z ((i + 1) * step)%Z in
         features ← build_features sub_event th;
         Ok (compressed_event ++ [dict_values features]))
      [] = Ok rows
    ∧ length rows = Z.to_nat timesteps
    ∧ Forall (λ row, length row = 17) rows
    ∧ ∀ i, (0 ≤ i < timesteps)%Z →
        Py.slice ev (i * step) ((i + 1) * step) = [] →
        rows !! Z.to_nat i = Some (replicate 17 0%Q).
Proof.
  destruct (for_range_invariant
    (λ n (rows : list (list Q)),
       length rows = Z.to_nat n
       ∧ Forall (λ row, length row = 17) rows
       ∧ ∀ i, (0 ≤ i < n)%Z →
           Py.slice ev (i * step) ((i + 1) * step) = [] →
           rows !! Z.to_nat i = Some (replicate 17 0%Q))
    0%Z timesteps
    (λ i compressed_event,
       let sub_event := Py.slice ev (i * step)%Z ((i + 1) * step)%Z in
       features ← build_features sub_event th;
       Ok (compressed_event ++ [dict_values features]))
    []) as (rows & Hfor & Hlen & Hrows & Hzero).
  - split; [done|]. split; [constructor|]. intros; lia.
  - intros i rows Hi (Hlen & Hrows & Hzero). cbv zeta.
    destruct (build_features_keys (Py.slice ev (i * step) ((i + 1) * step)) th)
      as (features & Hfeatures & Hkeys).
    rewrite (bind_ok _ _ _ Hfeatures).
    eexists. split; [done|]. split; [|split].
    + rewrite length_app. cbn [length]. lia.
    + apply Forall_app. split; [done|]. constructor; [|constructor].
      by rewrite (length_dict_values _ _ Hkeys).
    + intros j Hj Hempty.
      destruct (decide (j = i)) as [->|Hne].
      * rewrite <- Hlen, list_lookup_middle by done.
        rewrite Hempty, build_features_empty in Hfeatures. by simplify_eq.
      * rewrite lookup_app_l by lia. apply Hzero; [lia|done].
  - exists rows. split; [done|]. split; [lia|]. split; [done|].
    intros i Hi. apply Hzero. lia.
Qed.

End ProcessEvent.

(** C1. For a positive number of time steps, and a step size either given
    or computed as the ceiling of [len(event) / timesteps], [_process_event]
    returns [timesteps] rows of 17 numbers each; every row whose window is
    empty is all zeros, and with a positive step size these are the rows [i]
    with [len(event) ≤ i * stepsize]. *)
Theorem process_event_shape `{Externals} (ev : event)
    (timesteps : Z) (stepsize : option Z) (extrema_th : Q) :
  (0 < timesteps)%Z →
  ∃ step rows,
    Py.or_else stepsize (Py.ceil_div (Z.of_nat (length ev)) timesteps) = Ok step
    ∧ (Py.truthy stepsize = true → stepsize = Some step)
    ∧ (Py.truthy stepsize = false →
         (Z.of_nat (length ev) ≤ step * timesteps
          < Z.of_nat (length ev) + timesteps)%Z)
    ∧ _process_event ev timesteps stepsize extrema_th = Ok rows
    ∧ length rows = Z.to_nat timesteps
    ∧ Forall (λ row, length row = 17) rows
    ∧ ∀ i, (0 ≤ i < timesteps)%Z →
        (Py.slice ev (i * step) ((i + 1) * step) = [] →
           rows !! Z.to_nat i = Some (replicate 17 0%Q))
        ∧ ((0 < step)%Z → (Z.of_nat (length ev) ≤ i * step)%Z →
           rows !! Z.to_nat i = Some (replicate 17 0%Q)).
Proof.
  intros Htimesteps.
  destruct (ceil_div_spec (Z.of_nat (length ev)) timesteps Htimesteps)
    as (q & Hq & Hceil).
  assert (∃ step,
    Py.or_else stepsize (Py.ceil_div (Z.of_nat (length ev)) timesteps) = Ok step
    ∧ (Py.truthy stepsize = true → stepsize = Some step)
    ∧ (Py.truthy stepsize = false →
         (Z.of_nat (length ev) ≤ step * timesteps
          < Z.of_nat (length ev) + timesteps)%Z))
    as (step & Hstep & Hgiven & Hcomputed).
  { destruct stepsize as [v|]; cbn [Py.or_else Py.truthy].
    - destruct (Z.eqb_spec v 0) as [->|Hv]; cbn [negb].
      + exists q. by rewrite Hq.
      + exists v. done.
    - exists q. by rewrite Hq. }
  destruct (process_event_loop ev timesteps step extrema_th)
    as (rows & Hloop & Hlen & Hrows & Hzero).
  exists step, rows.
  split; [done|]. split; [done|]. split; [done|]. split.
  { unfold _process_event. by rewrite (bind_ok _ _ _ Hstep). }
  split; [done|]. split; [done|].
  intros i Hi. split; [by apply Hzero|].
  intros Hpos Hshort. apply Hzero; [done|]. by apply slice_past_end.
Qed.

Lemma process_event_shape_witness :
  (0 < 4)%Z ∧
  ∃ step rows,
    Py.or_else None (Py.ceil_div (Z.of_nat (length zigzag)) 4) = Ok step
    ∧ (Py.truthy None = true → None = Some step)
    ∧ (Py.truthy None = false →
         (Z.of_nat (length zigzag) ≤ step * 4 < Z.of_nat (length zigzag) + 4)%Z)
    ∧ @_process_event Reference.externals zigzag 4 None 2 = Ok rows
    ∧ length rows = Z.to_nat 4
    ∧ Forall (λ row, length row = 17) rows
    ∧ ∀ i, (0 ≤ i < 4)%Z →
        (Py.slice zigzag (i * step) ((i + 1) * step) = [] →
           rows !! Z.to_nat i = Some (replicate 17 0%Q))
        ∧ ((0 < step)%Z → (Z.of_nat (length zigzag) ≤ i * step)%Z →
           rows !! Z.to_nat i = Some (replicate 17 0%Q)).
Proof.
  split; [lia|].
  apply (@process_event_shape Reference.externals zigzag 4 None 2). lia.
Defined.

(** ** [preprocess] *)

Section Preprocess.
Context `{Externals}.
Implicit Types (ev : event) (b_data : list event).

Lemma normal_events_loop b_data (acc : list event) :
  foldl (λ normal_events ev,
           if decide ((Z.of_nat (length ev) > min_event_len)%Z
                      ∧ (Z.of_nat (length ev) < max_event_len)%Z)
           then normal_events ++ [ev] else normal_events)
        acc b_data
  = acc ++ filter (λ ev, (Z.of_nat (length ev) > min_event_len)%Z
                         ∧ (Z.of_nat (length ev) < max_event_len)%Z) b_data.
Proof.
  revert acc. induction b_data as [|ev b_data IH]; intros acc; cbn [foldl].
  - by rewrite filter_nil, app_nil_r.
  - rewrite IH, filter_cons. case_decide; [|done].
    by rewrite <- app_assoc.
Qed.

Lemma normal_events_of_filter b_data :
  normal_events_of b_data
  = filter (λ ev, (Z.of_nat (length ev) > min_event_len)%Z
                  ∧ (Z.of_nat (length ev) < max_event_len)%Z) b_data.
Proof. apply (normal_events_loop b_data []). Qed.

Lemma remove_short_and_long_loop (balanced_data acc : list (list event)) :
  foldl (λ normal_data b_data, normal_data ++ [normal_events_of b_data])
        acc balanced_data
  = acc ++ map normal_events_of balanced_data.
Proof.
  revert acc.
  induction balanced_data as [|b_data balanced_data IH]; intros acc;
    cbn [foldl map].
  - by rewrite app_nil_r.
  - by rewrite IH, <- app_assoc.
Qed.

Lemma remove_short_and_long_map (balanced_data : list (list event)) :
  remove_short_and_long balanced_data = map normal_events_of balanced_data.
Proof. apply (remove_short_and_long_loop balanced_data []). Qed.

Lemma length_flat_event n : length (flat_event n) = n.
Proof. unfold flat_event. by rewrite length_map, length_seq. Qed.

Lemma normal_events_of_singleton ev :
  normal_events_of [ev]
  = if decide ((50 < Z.of_nat (length ev))%Z ∧ (Z.of_nat (length ev) < 10000)%Z)
    then [ev] else [].
Proof.
  rewrite normal_events_of_filter, filter_cons, filter_nil.
  unfold min_event_len, max_event_len.
  repeat case_decide; (done || lia).
Qed.

End Preprocess.

(** C5. The duration filter keeps, in their order, exactly the events with
    more than 50 and fewer than 10000 samples, class by class; 50 and 10000
    are constants of the code. An event of 50 or of 10000 samples is dropped,
    an event of 51 or of 9999 samples is kept. *)
Theorem duration_filter (b_data : list event) (balanced_data : list (list event)) :
  min_event_len = 50%Z ∧ max_event_len = 10000%Z
  ∧ remove_short_and_long balanced_data = map normal_events_of balanced_data
  ∧ normal_events_of b_data
    = filter (λ ev, (50 < Z.of_nat (length ev))%Z
                    ∧ (Z.of_nat (length ev) < 10000)%Z) b_data
  ∧ (∀ ev, ev ∈ normal_events_of b_data
           ↔ ev ∈ b_data ∧ (50 < Z.of_nat (length ev) < 10000)%Z)
  ∧ normal_events_of [flat_event (Z.to_nat 50)] = []
  ∧ normal_events_of [flat_event (Z.to_nat 51)] = [flat_event (Z.to_nat 51)]
  ∧ normal_events_of [flat_event (Z.to_nat 9999)] = [flat_event (Z.to_nat 9999)]
  ∧ normal_events_of [flat_event (Z.to_nat 10000)] = [].
Proof.
  split; [done|]. split; [done|].
  split; [apply remove_short_and_long_map|].
  assert (normal_events_of b_data
    = filter (λ ev, (50 < Z.of_nat (length ev))%Z
                    ∧ (Z.of_nat (length ev) < 10000)%Z) b_data) as Hfilter.
  { rewrite normal_events_of_filter. unfold min_event_len, max_event_len.
    apply list_filter_iff. intros ev. lia. }
  split; [done|]. split.
  { intros ev. rewrite Hfilter, list_elem_of_filter. tauto. }
  rewrite !normal_events_of_singleton, !length_flat_event.
  repeat split; case_decide; (done || lia).
Qed.

Section Balance.
Context `{Externals}.

Lemma permutation_in_range g n :
  Forall (λ i, (0 ≤ i < Z.of_nat n)%Z) (np_random_permutation g n).1.
Proof.
  rewrite np_random_permutation_perm.
  apply Forall_forall. intros i Hi.
  apply list_elem_of_fmap in Hi as (k & -> & Hk).
  apply elem_of_seq in Hk. lia.
Qed.

Lemma Forall_slice {A} (P : A → Prop) (l : list A) lo hi :
  Forall P l → Forall P (Py.slice l lo hi).
Proof. intros Hl. unfold Py.slice. by apply Forall_take, Forall_drop. Qed.

(** The loop of lines 145 to 147 never raises. *)
Lemma balance_loop (raw_data : list (list event)) (min_data_size : Z)
    (acc : list (list event)) (g : rng) :
  ∃ balanced g',
    Py.for_in raw_data
      (λ r_data '(balanced_data, g),
         let '(indices, g) := np_random_permutation g (length r_data) in
         chosen ← Py.take_indices r_data (Py.slice indices 0 min_data_size);
         Ok (balanced_data ++ [chosen], g))
      (acc, g) = Ok (acc ++ balanced, g')
    ∧ length balanced = length raw_data.
Proof.
  revert acc g.
  induction raw_data as [|r_data raw_data IH]; intros acc g; cbn [Py.for_in].
  - exists [], g. by rewrite app_nil_r.
  - pose proof (permutation_in_range g (length r_data)) as Hrange.
    destruct (np_random_permutation g (length r_data)) as [indices g1].
    destruct (take_indices_ok r_data (Py.slice indices 0 min_data_size))
      as (chosen & Hchosen & _); [by apply Forall_slice|].
    rewrite (bind_ok _ _ _ Hchosen).
    unfold mbind at 1, result_bind at 1.
    destruct (IH (acc ++ [chosen]) g1) as (balanced & g' & -> & Hlen).
    exists (chosen :: balanced), g'. rewrite <- app_assoc.
    split; [done|]. cbn [length]. lia.
Qed.

Lemma balance_ok (raw_data : list (list event)) (g : rng) :
  raw_data ≠ [] →
  ∃ balanced g', balance raw_data g = Ok (balanced, g')
                 ∧ length balanced = length raw_data.
Proof.
  intros Hraw. unfold balance.
  destruct raw_data as [|r_data raw_data]; [done|]. cbn [map Py.min].
  unfold mbind at 1, result_bind at 1.
  apply (balance_loop _ _ []).
Qed.

Lemma balance_no_classes (g : rng) :
  balance [] g = Raise (ValueError "min() arg is an empty sequence").
Proof. done. Qed.

End Balance.

(** C6. Without [timesteps] and without [stepsize], [preprocess] raises the
    [ValueError] of line 138, whatever the data; no dataset comes out of it,
    nor out of the constructor. *)
Theorem preprocess_needs_timesteps_or_stepsize `{Externals}
    (raw_data : list (list event)) (extrema_th : Q) (seed : Z) :
  preprocess raw_data None None extrema_th seed
    = Raise (ValueError "Either timesteps or stepsize should be specified")
  ∧ PolymerDataset_init raw_data None None extrema_th
    = Raise (ValueError "Either timesteps or stepsize should be specified")
  ∧ ∀ d, preprocess raw_data None None extrema_th seed ≠ Ok d
         ∧ PolymerDataset_init raw_data None None extrema_th ≠ Ok d.
Proof. done. Qed.

(** C7, as the code has it. When there is no class at all, or when no event
    of any class is left after balancing and filtering, [preprocess] raises
    a [ValueError] and returns no dataset. *)
Theorem preprocess_nothing_retained `{Externals}
    (raw_data : list (list event)) (timesteps stepsize : option Z)
    (extrema_th : Q) (seed : Z) :
  raw_data = []
  ∨ (∀ balanced g',
       balance raw_data (np_random_seed seed) = Ok (balanced, g') →
       concat (remove_short_and_long balanced) = []) →
  ∃ msg, preprocess raw_data timesteps stepsize extrema_th seed
         = Raise (ValueError msg).
Proof.
  intros Hnothing. unfold preprocess.
  destruct (negb (Py.truthy timesteps) && negb (Py.truthy stepsize));
    [by eexists|].
  destruct (decide (raw_data = [])) as [->|Hraw].
  { rewrite balance_no_classes. by eexists. }
  destruct Hnothing as [?|Hnothing]; [done|].
  destruct (balance_ok raw_data (np_random_seed seed) Hraw)
    as (balanced & g' & Hbalance & _).
  rewrite (bind_ok _ _ _ Hbalance). cbv beta iota zeta.
  rewrite (Hnothing balanced g' Hbalance). by eexists.
Qed.

Lemma preprocess_nothing_retained_witness :
  ([[flat_event 3]; [flat_event 1]] = []
   ∨ (∀ balanced g',
        @balance Reference.externals [[flat_event 3]; [flat_event 1]]
          (np_random_seed 42) = Ok (balanced, g') →
        concat (remove_short_and_long balanced) = []))
  ∧ ∃ msg, @preprocess Reference.externals [[flat_event 3]; [flat_event 1]]
             (Some 1%Z) None 0 42
           = Raise (ValueError msg).
Proof.
  assert (∀ balanced g',
    @balance Reference.externals [[flat_event 3]; [flat_event 1]]
      (np_random_seed 42) = Ok (balanced, g') →
    concat (remove_short_and_long balanced) = []) as Hnothing.
  { intros balanced g' Hbalance. vm_compute in Hbalance.
    injection Hbalance as <- _. reflexivity. }
  split; [by right|].
  apply (@preprocess_nothing_retained Reference.externals). by right.
Defined.

(** C7 as the specification words it fails: with one class of a 51-sample
    event and one class of a single-sample event, the second class has no
    event left after the filter, and [preprocess] still returns a dataset,
    of the one event of the first class. *)
Lemma preprocess_with_an_emptied_class :
  @balance Reference.externals [[flat_event 51]; [flat_event 1]]
    (np_random_seed 42) = Ok ([[flat_event 51]; [flat_event 1]], tt)
  ∧ remove_short_and_long [[flat_event 51]; [flat_event 1]]
    = [[flat_event 51]; []]
  ∧ ∃ d, @preprocess Reference.externals [[flat_event 51]; [flat_event 1]]
           (Some 1%Z) None 0 42 = Ok d
         ∧ labels d = [0%Z]
         ∧ length (data d) = 1.
Proof.
  split; [vm_compute; reflexivity|]. split; [vm_compute; reflexivity|].
  eexists. split; [vm_compute; reflexivity|]. split; reflexivity.
Qed.


(** * Further properties *)

(** ** [find_current_diffs] *)

Section CurrentDiffs.
Implicit Types (ev : event) (l : list Q).





End CurrentDiffs.


(** ** More on [find_extrema] *)

Section Accepted.
Implicit Types (ev extrema : list sample) (th : Q).

(** One iteration on an interior index, exactly: the sample is appended when
    the index is a candidate and its current is more than the threshold away
    from the current of the last extremum. *)
Lemma find_extrema_body_exact ev th i (extrema : list sample) last_extremum :
  (1 ≤ i)%Z → (i + 1 < Z.of_nat (length ev))%Z →
  last extrema = Some last_extremum →
  ∃ prev this next,
    ev !! Z.to_nat (i - 1) = Some prev ∧ ev !! Z.to_nat i = Some this
    ∧ ev !! Z.to_nat (i + 1) = Some next
    ∧ find_extrema_body ev th i extrema
      = Ok (if Qle_bool 0 ((current this - current prev)
                           * (current this - current next))
               && Qgt_bool (Qabs (current this - current last_extremum)) th
            then extrema ++ [this] else extrema).
Proof.
  intros Hi Hn Hlast.
  destruct (lookup_lt_is_Some_2 ev (Z.to_nat i)) as [this Hthis]; [lia|].
  destruct (lookup_lt_is_Some_2 ev (Z.to_nat (i - 1))) as [prev Hprev]; [lia|].
  destruct (lookup_lt_is_Some_2 ev (Z.to_nat (i + 1))) as [next Hnext]; [lia|].
  exists prev, this, next. split; [done|]. split; [done|]. split; [done|].
  unfold find_extrema_body.
  rewrite (index_Z ev i this), (index_Z ev (i - 1) prev),
    (index_Z ev (i + 1) next); [|lia|done|lia|done|lia|done].
  unfold mbind at 1 2 3, result_bind at 1 2 3. cbv beta iota zeta.
  destruct (Qle_bool _ _); [|done].
  apply last_Some in Hlast as [extrema' ->].
  rewrite index_final.
  unfold mbind, result_bind. cbv beta iota.
  by destruct (Qgt_bool _ _).
Qed.

Lemma spaced_snoc th (l : list sample) (a b : sample) :
  spaced th l → last l = Some a →
  (th < Qabs (current b - current a))%Q →
  spaced th (l ++ [b]).
Proof.
  intros Hl Hlast Hab k x y Hx Hy.
  apply last_Some in Hlast as [l' ->].
  destruct (decide (S k < length (l' ++ [a]))) as [Hk|Hk].
  - rewrite lookup_app_l in Hx by lia. rewrite lookup_app_l in Hy by lia.
    by apply (Hl k).
  - assert (S k = length (l' ++ [a])) as Hk'.
    { apply lookup_lt_Some in Hy. rewrite length_app in Hy. cbn in Hy. lia. }
    rewrite Hk', list_lookup_middle in Hy by done.
    rewrite length_app in Hk'. cbn [length] in Hk'.
    rewrite lookup_app_l in Hx by (rewrite length_app; cbn; lia).
    rewrite (list_lookup_middle l' [] a k) in Hx by lia.
    by simplify_eq.
Qed.

(** The loop keeps only candidates, and keeps the extrema spaced. *)
Lemma find_extrema_loop_accepted ev th first :
  ev !! 0 = Some first →
  ∃ mid,
    Py.for_in (Py.range 1 (Z.of_nat (length ev) - 1))
              (find_extrema_body ev th) [first] = Ok (first :: mid)
    ∧ Forall (λ x, ∃ i, ev !! i = Some x ∧ candidate ev i) mid
    ∧ spaced th (first :: mid).
Proof.
  intros Hfirst.
  destruct (for_range_invariant
    (λ (i : Z) extrema, ∃ mid, extrema = first :: mid
       ∧ Forall (λ x, ∃ i, ev !! i = Some x ∧ candidate ev i) mid
       ∧ spaced th (first :: mid))
    1 (Z.of_nat (length ev) - 1) (find_extrema_body ev th) [first])
    as (extrema & Hfor & mid & -> & Hcand & Hspaced).
  - exists []. split; [done|]. split; [constructor|].
    intros k a b Ha Hb. by destruct k.
  - intros i extrema Hi (mid & -> & Hcand & Hspaced).
    destruct (index_final_cons first mid) as (lx & _ & Hlast).
    destruct (find_extrema_body_exact ev th i (first :: mid) lx)
      as (prev & this & next & Hprev & Hthis & Hnext & ->); [lia|lia|done|].
    destruct (Qle_bool _ _) eqn:Hprod; cbn [andb];
      [destruct (Qgt_bool _ _) eqn:Hgt|];
      (eexists; split; [done|]).
    + exists (mid ++ [this]). split; [done|]. split.
      * apply Forall_app. split; [done|]. constructor; [|constructor].
        exists (Z.to_nat i). split; [done|].
        exists prev, this, next.
        replace (Z.to_nat i - 1) with (Z.to_nat (i - 1)) by lia.
        replace (Z.to_nat i + 1) with (Z.to_nat (i + 1)) by lia.
        split; [lia|]. split; [done|]. split; [done|]. split; [done|].
        by apply Qle_bool_iff.
      * apply (spaced_snoc th (first :: mid) lx this); [done|done|].
        by apply Qgt_bool_true.
    + by exists mid.
    + by exists mid.
  - by exists mid.
Qed.

Lemma find_extrema_accepted ev th first :
  ev !! 0 = Some first →
  ∃ mid final,
    last ev = Some final
    ∧ find_extrema ev th = Ok (first :: mid ++ [final])
    ∧ Forall (λ x, ∃ i, ev !! i = Some x ∧ candidate ev i) mid
    ∧ spaced th (first :: mid).
Proof.
  intros Hfirst.
  destruct (find_extrema_loop_accepted ev th first Hfirst)
    as (mid & Hloop & Hcand & Hspaced).
  destruct ev as [|x rest]; [done|]. cbn in Hfirst. simplify_eq.
  destruct (index_final_cons first rest) as (final & Hfinal & Hlast).
  exists mid, final. split; [done|]. split; [|done].
  unfold find_extrema.
  rewrite (bind_ok _ _ _ (index_first first rest)).
  rewrite (bind_ok _ _ _ Hloop).
  by rewrite (bind_ok _ _ _ Hfinal).
Qed.

End Accepted.

(** X2. [find_extrema] raises exactly on the empty event, and then an
    [IndexError] (from [event[0]]); on every other event it returns. *)
Theorem find_extrema_raises_iff_empty (ev : event) (th : Q) (e : exn) :
  find_extrema ev th = Raise e ↔ ev = [] ∧ e = IndexError.
Proof.
  split.
  - destruct ev as [|first rest].
    + intros He. vm_compute in He. by simplify_eq.
    + destruct (find_extrema_spec (first :: rest) th first)
        as (mid & final & _ & -> & _); done.
  - by intros [-> ->].
Qed.



Section NoExtrema.
Implicit Types (ev : event) (th : Q).


End NoExtrema.



(** X5. When no current of the event is more than the threshold away from
    the current of the first sample, [find_extrema] returns the two
    endpoints and nothing else. *)
Theorem find_extrema_within_threshold (ev : event) (th : Q)
    (first final : sample) :
  Py.index ev 0 = Ok first → Py.index ev (-1) = Ok final →
  (∀ x, x ∈ ev → (Qabs (current x - current first) <= th)%Q) →
  find_extrema ev th = Ok [first; final].
Proof.
  intros Hfirst Hfinal Hnear.
  destruct ev as [|x rest]; [by rewrite index_empty in Hfirst|].
  rewrite index_first in Hfirst. simplify_eq.
  apply index_final_last in Hfinal.
  destruct (find_extrema_accepted (first :: rest) th first)
    as (mid & final' & Hlast & -> & Hcand & Hspaced); [done|].
  rewrite Hfinal in Hlast. simplify_eq.
  destruct mid as [|m mid]; [done|].
  apply Forall_cons in Hcand as [(i & Hi & _) _].
  specialize (Hspaced 0 first m eq_refl eq_refl).
  apply list_elem_of_lookup_2 in Hi.
  destruct (Qlt_not_le _ _ Hspaced (Hnear m Hi)).
Qed.

Lemma find_extrema_within_threshold_witness :
  Py.index zigzag 0 = Ok (0, 0)%Q ∧ Py.index zigzag (-1) = Ok (5, 3)%Q
  ∧ (∀ x, x ∈ zigzag → (Qabs (current x - current (0, 0)%Q) <= 5)%Q)
  ∧ find_extrema zigzag 5 = Ok [(0, 0); (5, 3)]%Q.
Proof.
  assert (∀ x, x ∈ zigzag → (Qabs (current x - current (0, 0)%Q) <= 5)%Q)
    as Hnear.
  { intros x Hx. unfold zigzag in Hx.
    repeat (apply elem_of_cons in Hx as [->|Hx]; [discriminate|]).
    by apply elem_of_nil in Hx. }
  split; [reflexivity|]. split; [reflexivity|]. split; [done|].
  apply (find_extrema_within_threshold zigzag 5); [reflexivity|reflexivity|done].
Defined.

Section NegativeThreshold.
Implicit Types (ev extrema : list sample) (th : Q).




End NegativeThreshold.



(** ** More on [build_features] *)

Section CurrentStatistics.
Implicit Types (l : list Q) (x : Q).



Lemma of_nat_succ (n : nat) : (of_nat (S n) == of_nat n + 1)%Q.
Proof.
  unfold of_nat. by rewrite Nat2Z.inj_succ, <- Z.add_1_r, inject_Z_plus.
Qed.

Lemma of_nat_pos (n : nat) : n > 0 → (0 < of_nat n)%Q.
Proof.
  intros Hn. unfold of_nat. change 0%Q with (inject_Z 0).
  rewrite <- Zlt_Qlt. lia.
Qed.


Lemma np_sum_lower l (m : Q) :
  Forall (λ c, m <= c)%Q l → (of_nat (length l) * m <= np_sum l)%Q.
Proof.
  induction 1 as [|x l Hx _ IH]; cbn [np_sum foldr length].
  - change (of_nat 0) with 0%Q. lra.
  - fold (np_sum l). rewrite of_nat_succ. nra.
Qed.


End CurrentStatistics.


(** X8. On a window of a single sample [build_features] gives
    [num_signals = 1], the time of the sample as [duration], its current as
    [max_current], [min_current] and (up to equality of rationals)
    [mean_current], two extrema (the sample twice) and a
    [mean_extrema_diff] of 0. *)
Theorem build_features_single_sample `{Externals} (s : sample) (extrema_th : Q) :
  ∃ features mean_current mean_extrema_diff,
    build_features [s] extrema_th = Ok features
    ∧ dict_get "num_signals" features = Some 1%Q
    ∧ dict_get "duration" features = Some (time s)
    ∧ dict_get "max_current" features = Some (current s)
    ∧ dict_get "min_current" features = Some (current s)
    ∧ dict_get "mean_current" features = Some mean_current
    ∧ (mean_current == current s)%Q
    ∧ dict_get "num_extrema" features = Some 2%Q
    ∧ dict_get "mean_extrema_diff" features = Some mean_extrema_diff
    ∧ (mean_extrema_diff == 0)%Q.
Proof.
  destruct (build_features_nonempty [s] extrema_th)
    as (final & mx & mn & extrema & widths & rows
        & Hfinal & Hmax & Hmin & Hextrema & _ & _ & _ & Hfeatures).
  { cbn. lia. }
  vm_compute in Hfinal, Hextrema. cbn [map np_max np_min foldl] in Hmax, Hmin.
  injection Hfinal as <-. injection Hextrema as <-.
  injection Hmax as <-. injection Hmin as <-.
  eexists _, _, _. split; [exact Hfeatures|].
  split; [done|]. split; [done|]. split; [done|]. split; [done|].
  split; [done|]. split.
  { unfold np_mean, np_sum, of_nat. cbn [map foldr length]. field. }
  split; [done|]. split; [done|].
  unfold np_mean, np_sum, of_nat, consecutive_diffs.
  cbn [map foldr length drop zip_with].
  assert (current s - current s == 0)%Q as -> by ring.
  reflexivity.
Qed.

(** ** More on [_process_event] *)

Section Windows.
Context `{Externals}.
Implicit Types (ev : event) (th : Q).

Lemma range_snoc (n : Z) :
  (0 ≤ n)%Z → Py.range 0 (n + 1) = Py.range 0 n ++ [n].
Proof.
  intros Hn. unfold Py.range.
  replace (Z.to_nat (n + 1 - 0)) with (S (Z.to_nat (n - 0))) by lia.
  rewrite seq_S, map_app. cbn [map]. do 2 f_equal. lia.
Qed.

Lemma window_nat ev (s i : nat) :
  window ev (Z.of_nat s) (Z.of_nat i)
  = take (Nat.min ((i + 1) * s) (length ev) - Nat.min (i * s) (length ev))
         (drop (Nat.min (i * s) (length ev)) ev).
Proof.
  unfold window, Py.slice, Py.clip.
  rewrite !(proj2 (Z.ltb_ge _ 0)) by lia.
  replace (Z.to_nat (Z.of_nat i * Z.of_nat s)) with (i * s) by lia.
  by replace (Z.to_nat ((Z.of_nat i + 1) * Z.of_nat s)) with ((i + 1) * s) by lia.
Qed.

(** The first [n] windows, one after the other, are the first [n * s]
    samples of the event. *)
Lemma windows_concat ev (s n : nat) :
  concat (map (window ev (Z.of_nat s)) (Py.range 0 (Z.of_nat n)))
  = take (n * s) ev.
Proof.
  induction n as [|n IH]; [done|].
  rewrite Nat2Z.inj_succ, <- Z.add_1_r, range_snoc by lia.
  rewrite map_app, concat_app, IH. cbn [map concat].
  rewrite app_nil_r, window_nat.
  destruct (decide (n * s ≤ length ev)) as [Hle|Hgt].
  - rewrite (Nat.min_l (n * s)) by done.
    rewrite take_take_drop.
    destruct (decide ((n + 1) * s ≤ length ev)) as [Hle'|Hgt'].
    + rewrite Nat.min_l by done. f_equal. lia.
    + rewrite Nat.min_r by lia.
      replace (n * s + (length ev - n * s)) with (length ev) by lia.
      by rewrite firstn_all, take_ge by lia.
  - rewrite !Nat.min_r by lia. rewrite Nat.sub_diag, take_0, app_nil_r.
    by rewrite !take_ge by lia.
Qed.

Lemma build_features_num_signals ev th :
  ∃ features, build_features ev th = Ok features
    ∧ head (dict_values features) = Some (of_nat (length ev)).
Proof.
  destruct (decide (length ev > 0)) as [Hlen|Hlen].
  - destruct (build_features_nonempty ev th Hlen)
      as (? & ? & ? & ? & ? & ? & _ & _ & _ & _ & _ & _ & _ & ->).
    by eexists.
  - destruct ev; [|cbn in Hlen; lia]. by eexists.
Qed.

Lemma process_event_rows ev (timesteps step : Z) th :
  ∃ rows,
    Py.for_in (Py.range 0 timesteps)
      (λ i compressed_event,
         let sub_event := Py.slice ev (i * step)%Z ((i + 1) * step)%Z in
         features ← build_features sub_event th;
         Ok (compressed_event ++ [dict_values features]))
      [] = Ok rows
    ∧ Forall2 (λ i row, ∃ features,
                 build_features (window ev step i) th = Ok features
                 ∧ row = dict_values features)
              (Py.range 0 timesteps) rows.
Proof.
  destruct (for_range_invariant
    (λ n (rows : list (list Q)),
       Forall2 (λ i row, ∃ features,
                  build_features (window ev step i) th = Ok features
                  ∧ row = dict_values features)
               (Py.range 0 n) rows)
    0%Z timesteps
    (λ i compressed_event,
       let sub_event := Py.slice ev (i * step)%Z ((i + 1) * step)%Z in
       features ← build_features sub_event th;
       Ok (compressed_event ++ [dict_values features]))
    []) as (rows & Hfor & Hrows).
  - constructor.
  - intros i rows Hi Hrows. cbv zeta.
    destruct (build_features_keys (Py.slice ev (i * step) ((i + 1) * step)) th)
      as (features & Hfeatures & _).
    rewrite (bind_ok _ _ _ Hfeatures).
    eexists. split; [done|].
    rewrite range_snoc by lia. apply Forall2_app; [done|].
    constructor; [|constructor]. by exists features.
  - exists rows. split; [done|].
    destruct (decide (0 ≤ timesteps)%Z).
    + by replace (Z.max 0 timesteps) with timesteps in Hrows by lia.
    + rewrite range_empty in Hrows by lia. by rewrite range_empty by lia.
Qed.

End Windows.

(** X9. For a positive number of time steps, row [i] of the result of
    [_process_event] starts with the number of samples of the window
    [event[i*stepsize:(i+1)*stepsize]]. With a step size of at least 0 the
    windows, one after the other, are the first [timesteps * stepsize]
    samples of the event, so later samples are left out; when the step size
    is computed (none given, or 0) they are the whole event: every sample is
    in exactly one window. *)
Theorem process_event_windows `{Externals} (ev : event)
    (timesteps : Z) (stepsize : option Z) (extrema_th : Q) :
  (0 < timesteps)%Z →
  ∃ step rows,
    Py.or_else stepsize (Py.ceil_div (Z.of_nat (length ev)) timesteps) = Ok step
    ∧ _process_event ev timesteps stepsize extrema_th = Ok rows
    ∧ Forall2 (λ i row, head row = Some (of_nat (length (window ev step i))))
              (Py.range 0 timesteps) rows
    ∧ ((0 ≤ step)%Z →
         concat (map (window ev step) (Py.range 0 timesteps))
         = take (Z.to_nat (timesteps * step)) ev)
    ∧ (Py.truthy stepsize = false →
         concat (map (window ev step) (Py.range 0 timesteps)) = ev).
Proof.
  intros Htimesteps.
  destruct (ceil_div_spec (Z.of_nat (length ev)) timesteps Htimesteps)
    as (q & Hq & Hceil).
  assert (∃ step,
    Py.or_else stepsize (Py.ceil_div (Z.of_nat (length ev)) timesteps) = Ok step
    ∧ (Py.truthy stepsize = false → step = q))
    as (step & Hstep & Hcomputed).
  { destruct stepsize as [v|]; cbn [Py.or_else Py.truthy].
    - destruct (Z.eqb_spec v 0) as [->|Hv]; cbn [negb].
      + exists q. by rewrite Hq.
      + exists v. done.
    - exists q. by rewrite Hq. }
  destruct (process_event_rows ev timesteps step extrema_th)
    as (rows & Hloop & Hrows).
  assert ((0 ≤ step)%Z →
    concat (map (window ev step) (Py.range 0 timesteps))
    = take (Z.to_nat (timesteps * step)) ev) as Hconcat.
  { intros Hpos.
    rewrite <- (Z2Nat.id step), <- (Z2Nat.id timesteps) by lia.
    rewrite windows_concat. f_equal. lia. }
  exists step, rows. split; [done|]. split.
  { unfold _process_event. by rewrite (bind_ok _ _ _ Hstep). }
  split.
  { eapply Forall2_impl; [exact Hrows|].
    intros i row (features & Hfeatures & ->).
    destruct (build_features_num_signals (window ev step i) extrema_th)
      as (features' & Hfeatures' & Hhead).
    congruence. }
  split; [done|].
  intros Hfalsy. specialize (Hcomputed Hfalsy). subst step.
  rewrite Hconcat by nia. apply take_ge. nia.
Qed.

Lemma process_event_windows_witness :
  (0 < 4)%Z ∧
  ∃ step rows,
    Py.or_else None (Py.ceil_div (Z.of_nat (length zigzag)) 4) = Ok step
    ∧ @_process_event Reference.externals zigzag 4 None 2 = Ok rows
    ∧ Forall2 (λ i row, head row = Some (of_nat (length (window zigzag step i))))
              (Py.range 0 4) rows
    ∧ ((0 ≤ step)%Z →
         concat (map (window zigzag step) (Py.range 0 4))
         = take (Z.to_nat (4 * step)) zigzag)
    ∧ (Py.truthy None = false →
         concat (map (window zigzag step) (Py.range 0 4)) = zigzag).
Proof.
  split; [lia|].
  apply (@process_event_windows Reference.externals zigzag 4 None 2). lia.
Defined.

(** X10. With a number of time steps of 0 or less [_process_event] returns
    no row at all, except that it raises [ZeroDivisionError] when the number
    of time steps is 0 and no step size (or the step size 0) is given. *)
Theorem process_event_no_timesteps `{Externals} (ev : event)
    (timesteps : Z) (stepsize : option Z) (extrema_th : Q) :
  (timesteps ≤ 0)%Z →
  _process_event ev timesteps stepsize extrema_th
  = if (timesteps =? 0)%Z && negb (Py.truthy stepsize)
    then Raise ZeroDivisionError else Ok [].
Proof.
  intros Htimesteps. unfold _process_event, Py.ceil_div.
  rewrite (range_empty 0 timesteps) by lia.
  destruct stepsize as [v|]; cbn [Py.or_else Py.truthy].
  - destruct (v =? 0)%Z; cbn [negb]; [|by rewrite andb_false_r].
    rewrite andb_true_r. by destruct (timesteps =? 0)%Z.
  - cbn [negb]. rewrite andb_true_r. by destruct (timesteps =? 0)%Z.
Qed.

Lemma process_event_no_timesteps_witness :
  (0 ≤ 0)%Z
  ∧ @_process_event Reference.externals zigzag 0 None 2
    = (if (0 =? 0)%Z && negb (Py.truthy None)
       then Raise ZeroDivisionError else Ok [])
  ∧ @_process_event Reference.externals zigzag (-3) None 2
    = (if (-3 =? 0)%Z && negb (Py.truthy None)
       then Raise ZeroDivisionError else Ok []).
Proof.
  split; [lia|]. split.
  - apply (@process_event_no_timesteps Reference.externals zigzag 0 None 2). lia.
  - apply (@process_event_no_timesteps Reference.externals zigzag (-3) None 2).
    lia.
Defined.

(** ** More on [preprocess]: balancing *)

Section BalanceSpec.
Context `{Externals}.

Lemma py_min_fold (x : Z) (l : list Z) :
  let m := foldl (λ m y, if (y <? m)%Z then y else m) x l in
  m ∈ x :: l ∧ Forall (λ y, (m ≤ y)%Z) (x :: l).
Proof.
  revert x. induction l as [|y l IH]; intros x; cbn [foldl].
  - split; [by left|]. by repeat constructor.
  - cbv zeta in *.
    destruct (IH (if (y <? x)%Z then y else x)) as [Hin Hall].
    apply Forall_cons in Hall as [Hhead Hall].
    destruct (Z.ltb_spec y x).
    + split; [by right|]. constructor; [lia|by constructor].
    + split.
      * apply elem_of_cons in Hin as [->|Hin]; [by left|by right; right].
      * constructor; [done|]. constructor; [lia|done].
Qed.

Lemma omap_cons {A B} (f : A → option B) (x : A) (l : list A) :
  omap f (x :: l)
  = match f x with Some y => y :: omap f l | None => omap f l end.
Proof. done. Qed.

Lemma take_indices_omap {A} (l : list A) (idxs : list Z) :
  Forall (λ i, (0 ≤ i < Z.of_nat (length l))%Z) idxs →
  Py.take_indices l idxs = Ok (omap (λ i, l !! Z.to_nat i) idxs)
  ∧ length (omap (λ i, l !! Z.to_nat i) idxs) = length idxs.
Proof.
  unfold Py.take_indices.
  induction 1 as [|i idxs Hi _ [IH Hlen]]; [done|].
  destruct (lookup_lt_is_Some_2 l (Z.to_nat i)) as [x Hx]; [lia|].
  cbn [Py.comprehension]. rewrite omap_cons.
  rewrite (index_Z l i x), IH by (lia || done).
  rewrite Hx. split; [done|]. cbn [length]. by rewrite Hlen.
Qed.

Lemma omap_lookup_seq {A} (l : list A) (a n : nat) :
  omap (λ i, l !! Z.to_nat i) (map Z.of_nat (seq a n)) = take n (drop a l).
Proof.
  revert a. induction n as [|n IH]; intros a; [done|].
  cbn [seq map]. rewrite omap_cons, Nat2Z.id, IH.
  destruct (l !! a) as [x|] eqn:Hx.
  - by rewrite (drop_S l x a Hx).
  - apply lookup_ge_None in Hx. by rewrite !drop_ge, !take_nil by lia.
Qed.

(** What one class becomes: as many events as asked for (or all of them),
    drawn from the class without repetition. *)
Lemma balance_class (r_data : list event) (g : rng) (min_data_size : Z) :
  (0 ≤ min_data_size)%Z →
  ∃ chosen,
    Py.take_indices r_data
      (Py.slice (np_random_permutation g (length r_data)).1 0 min_data_size)
    = Ok chosen
    ∧ length chosen = Nat.min (Z.to_nat min_data_size) (length r_data)
    ∧ chosen ⊆+ r_data.
Proof.
  intros Hmin.
  pose proof (np_random_permutation_perm g (length r_data)) as Hperm.
  pose proof (permutation_in_range g (length r_data)) as Hrange.
  set (indices := (np_random_permutation g (length r_data)).1) in *.
  assert (length indices = length r_data) as Hlen.
  { by rewrite Hperm, length_map, length_seq. }
  assert (Py.slice indices 0 min_data_size
          = take (Nat.min (Z.to_nat min_data_size) (length r_data)) indices)
    as Hslice.
  { unfold Py.slice, Py.clip.
    rewrite (proj2 (Z.ltb_ge min_data_size 0)) by lia.
    cbn [Z.ltb Z.compare Z.to_nat]. rewrite Hlen, drop_0. f_equal. lia. }
  destruct (take_indices_omap r_data (Py.slice indices 0 min_data_size))
    as [Htake Hlength]; [by apply Forall_slice|].
  eexists. split; [exact Htake|]. split.
  - rewrite Hlength, Hslice, length_take. lia.
  - rewrite Hslice.
    apply submseteq_sublist_l.
    exists (omap (λ i, r_data !! Z.to_nat i) indices). split.
    + rewrite <- (take_drop (Nat.min (Z.to_nat min_data_size) (length r_data))
                   indices) at 2.
      rewrite omap_app. by apply sublist_inserts_r.
    + rewrite Hperm, omap_lookup_seq, drop_0. by rewrite firstn_all.
Qed.

Lemma balance_loop_spec (raw_data : list (list event)) (min_data_size : Z)
    (acc : list (list event)) (g : rng) :
  (0 ≤ min_data_size)%Z →
  ∃ balanced g',
    Py.for_in raw_data
      (λ r_data '(balanced_data, g),
         let '(indices, g) := np_random_permutation g (length r_data) in
         chosen ← Py.take_indices r_data (Py.slice indices 0 min_data_size);
         Ok (balanced_data ++ [chosen], g))
      (acc, g) = Ok (acc ++ balanced, g')
    ∧ Forall2 (λ r_data chosen,
                 length chosen = Nat.min (Z.to_nat min_data_size) (length r_data)
                 ∧ chosen ⊆+ r_data)
              raw_data balanced.
Proof.
  intros Hmin. revert acc g.
  induction raw_data as [|r_data raw_data IH]; intros acc g; cbn [Py.for_in].
  - exists [], g. rewrite app_nil_r. split; [done|constructor].
  - destruct (balance_class r_data g min_data_size Hmin)
      as (chosen & Hchosen & Hlen & Hsub).
    destruct (np_random_permutation g (length r_data)) as [indices g1].
    cbn [fst] in Hchosen. rewrite (bind_ok _ _ _ Hchosen).
    unfold mbind at 1, result_bind at 1.
    destruct (IH (acc ++ [chosen]) g1) as (balanced & g' & -> & Hall).
    exists (chosen :: balanced), g'. rewrite <- app_assoc.
    split; [done|]. by constructor.
Qed.

End BalanceSpec.

(** X11. Balancing a non-empty list of classes never raises. Every class
    comes out with as many events as the smallest class has, all drawn from
    that class without repetition, and the classes keep their order. *)
Theorem balance_equal_sizes `{Externals}
    (raw_data : list (list event)) (g : rng) :
  raw_data ≠ [] →
  ∃ balanced g' min_data_size,
    balance raw_data g = Ok (balanced, g')
    ∧ Py.min (map (λ d, Z.of_nat (length d)) raw_data) = Ok (Z.of_nat min_data_size)
    ∧ (∃ r_data, r_data ∈ raw_data ∧ length r_data = min_data_size)
    ∧ Forall (λ r_data, min_data_size ≤ length r_data) raw_data
    ∧ Forall2 (λ r_data chosen,
                 length chosen = min_data_size ∧ chosen ⊆+ r_data)
              raw_data balanced.
Proof.
  intros Hraw. destruct raw_data as [|r0 raw_data]; [done|].
  destruct (py_min_fold (Z.of_nat (length r0))
              (map (λ d : list event, Z.of_nat (length d)) raw_data))
    as [Hin Hall].
  cbv zeta in *.
  set (m := foldl (λ m y : Z, if (y <? m)%Z then y else m)
              (Z.of_nat (length r0))
              (map (λ d : list event, Z.of_nat (length d)) raw_data)) in *.
  change (Z.of_nat (length r0)
          :: map (λ d : list event, Z.of_nat (length d)) raw_data)
    with (map (λ d : list event, Z.of_nat (length d)) (r0 :: raw_data))
    in Hin, Hall.
  apply list_elem_of_fmap in Hin as (rmin & Hm & Hrmin).
  assert (Forall (λ r : list event, (m ≤ Z.of_nat (length r))%Z)
                 (r0 :: raw_data)) as Hall'.
  { apply Forall_forall. intros r Hr.
    apply (proj1 (Forall_forall _ _) Hall), list_elem_of_fmap. by exists r. }
  clear Hall. rename Hall' into Hall.
  destruct (balance_loop_spec (r0 :: raw_data) m [] g)
    as (balanced & g' & Hloop & Hbalanced); [lia|].
  exists balanced, g', (length rmin).
  split. { unfold balance. cbn [map Py.min]. fold m.
           unfold mbind at 1, result_bind at 1. exact Hloop. }
  split. { cbn [map Py.min]. fold m. by rewrite Hm. }
  split; [by exists rmin|]. split.
  { eapply Forall_impl; [exact Hall|]. intros r Hr. cbn in Hr. lia. }
  assert (Forall (λ r : list event, length rmin ≤ length r) (r0 :: raw_data))
    as Hle.
  { eapply Forall_impl; [exact Hall|]. intros r Hr. cbn in Hr. lia. }
  clear Hloop Hrmin Hall Hraw. clearbody m. subst m.
  induction Hbalanced as [|r chosen rs cs [Hlen Hsub] _ IH]; [constructor|].
  apply Forall_cons in Hle as [Hr Hle].
  constructor; [|by apply IH].
  split; [lia|done].
Qed.

Lemma balance_equal_sizes_witness :
  [[flat_event 3; flat_event 4]; [flat_event 1]] ≠ []
  ∧ ∃ balanced g' min_data_size,
      @balance Reference.externals
        [[flat_event 3; flat_event 4]; [flat_event 1]] tt = Ok (balanced, g')
      ∧ Py.min (map (λ d, Z.of_nat (length d))
                    [[flat_event 3; flat_event 4]; [flat_event 1]])
        = Ok (Z.of_nat min_data_size)
      ∧ (∃ r_data, r_data ∈ [[flat_event 3; flat_event 4]; [flat_event 1]]
                   ∧ length r_data = min_data_size)
      ∧ Forall (λ r_data, min_data_size ≤ length r_data)
               [[flat_event 3; flat_event 4]; [flat_event 1]]
      ∧ Forall2 (λ r_data chosen,
                   length chosen = min_data_size ∧ chosen ⊆+ r_data)
                [[flat_event 3; flat_event 4]; [flat_event 1]] balanced.
Proof.
  split; [done|].
  by apply (@balance_equal_sizes Reference.externals
              [[flat_event 3; flat_event 4]; [flat_event 1]] tt).
Defined.

(** ** More on [preprocess]: the dataset it returns *)

Section PreprocessReturns.
Context `{Externals}.
Implicit Types (ev : event) (th : Q).









End PreprocessReturns.



(** ** The accessors of the dataset *)

Section Accessors.
Implicit Types (l : list Z).










End Accessors.



(** X14. For [preprocess] a [timesteps] or a [stepsize] of 0 is the same as
    one that is not given: the result is the same, on all data, as with
    [None] in its place. In particular 0 for both raises the [ValueError] of
    line 138, and [timesteps = 0] with a step size does not give datasets of
    zero rows but a number of time steps computed from the step size. *)
Theorem preprocess_zero_counts_as_missing `{Externals}
    (raw_data : list (list event)) (timesteps stepsize : option Z)
    (extrema_th : Q) (seed : Z) :
  preprocess raw_data (Some 0%Z) stepsize extrema_th seed
  = preprocess raw_data None stepsize extrema_th seed
  ∧ preprocess raw_data timesteps (Some 0%Z) extrema_th seed
    = preprocess raw_data timesteps None extrema_th seed
  ∧ preprocess raw_data (Some 0%Z) (Some 0%Z) extrema_th seed
    = Raise (ValueError "Either timesteps or stepsize should be specified").
Proof. split; [reflexivity|]. split; reflexivity. Qed.

Section FeatureInvariants.

Lemma np_mean_nonneg (l : list Q) :
  length l > 0 → Forall (λ c, 0 <= c)%Q l → (0 <= np_mean l)%Q.
Proof.
  intros Hlen Hall. unfold np_mean.
  apply Qle_shift_div_l; [by apply of_nat_pos|].
  pose proof (np_sum_lower l 0 Hall). lra.
Qed.

End FeatureInvariants.

(** X15. [build_features] raises on no window and no threshold (given a peak
    detector that returns indices of the window), and always returns the
    same 17 keys in the same order. On a non-empty window
    [mean_extrema_diff] is at least 0, and [num_extrema] is at least 2 and,
    for a window of two samples or more, at most [num_signals]. *)
Theorem build_features_invariants `{Externals} (ev : event) (extrema_th : Q) :
  ∃ features,
    build_features ev extrema_th = Ok features
    ∧ dict_keys features =
        [ "num_signals"; "duration"; "max_current"; "min_current";
          "mean_current"; "std_current"; "num_extrema"; "mean_extrema";
          "std_extrema"; "mean_extrema_diff"; "num_peaks"; "mean_peaks";
          "peak_1"; "peak_2"; "peak_3"; "peak_4"; "peak_5" ]
    ∧ length (dict_values features) = 17
    ∧ (length ev > 0 →
         ∃ extrema mean_extrema_diff,
           find_extrema ev extrema_th = Ok extrema
           ∧ dict_get "num_extrema" features = Some (of_nat (length extrema))
           ∧ 2 ≤ length extrema ≤ Nat.max 2 (length ev)
           ∧ dict_get "mean_extrema_diff" features = Some mean_extrema_diff
           ∧ (0 <= mean_extrema_diff)%Q).
Proof.
  destruct (decide (length ev > 0)) as [Hlen|Hlen].
  - destruct (build_features_nonempty ev extrema_th Hlen)
      as (final & mx & mn & extrema & widths & rows
          & _ & _ & _ & Hextrema & Htwo & _ & _ & Hfeatures).
    eexists. split; [exact Hfeatures|]. split; [done|]. split; [done|].
    intros _. exists extrema. eexists.
    split; [done|]. split; [done|]. split; [|split; [done|]].
    + split; [done|].
      destruct ev as [|first rest]; [cbn in Hlen; lia|].
      destruct (find_extrema_spec (first :: rest) extrema_th first)
        as (mid & final' & _ & Hfe & Hsub); [done|].
      rewrite Hextrema in Hfe. injection Hfe as ->.
      apply sublist_length in Hsub. unfold interior in Hsub.
      rewrite length_take in Hsub.
      cbn [length] in *. rewrite length_app. cbn [length]. lia.
    + apply np_mean_nonneg.
      * rewrite length_map, length_consecutive_diffs, length_map. lia.
      * apply Forall_forall. intros c Hc.
        apply list_elem_of_fmap in Hc as (d & -> & _). apply Qabs_nonneg.
  - destruct ev; [|cbn in Hlen; lia].
    exists features_init. split; [done|]. split; [done|]. split; [done|].
    intros Hpos. cbn in Hpos. lia.
Qed.
